(** * Extrinsic calibration batch tool: a shallow embedding of
      [calibrate_extrinsics.py] and the properties of its loader, pose solver
      and orchestrator.

    The program reads two JSON documents, joins them per camera id, calls
    OpenCV's PnP solver for each camera and writes one JSON report.  The
    embedding keeps the three functions of the source
    ([load_calibration_data], [calculate_extrinsics], [main]) and the order
    of their effects: printed lines, raised exceptions, the written file.

    What is outside the source is taken as it is used there:
    - [open] and [json.load] are represented by their result for a file: no
      file, a decoding error, another exception (which the loader does not
      catch), or the parsed value; the output file can always be written;
    - NumPy's coercion of one scalar to a 32-bit float, [cv2.solvePnP] and
      [cv2.Rodrigues] are section variables;
    - what the libraries raise is an instance of [Exception]. *)

From Stdlib Require Import String Ascii List ZArith Bool Arith Lia Floats Uint63.
Import ListNotations.
Open Scope string_scope.
Open Scope list_scope.

Set Implicit Arguments.

(** ** Python dictionaries

    A [dict] keeps its keys in insertion order, holds each key once, and
    [d[k] = v] on a key already present replaces the value where it stands. *)

Section Dict.
Variable V : Type.

Definition pydict := list (string * V).

Fixpoint dict_get (k : string) (d : pydict) : option V :=
  match d with
  | [] => None
  | (k', v) :: d' => if String.eqb k k' then Some v else dict_get k d'
  end.

(** [d[k] = v] *)
Fixpoint dict_set (k : string) (v : V) (d : pydict) : pydict :=
  match d with
  | [] => [(k, v)]
  | (k', v') :: d' =>
      if String.eqb k k' then (k, v) :: d' else (k', v') :: dict_set k v d'
  end.

(** [del d[k]]; the source only deletes a key it has just stored. *)
Fixpoint dict_del (k : string) (d : pydict) : pydict :=
  match d with
  | [] => []
  | (k', v') :: d' =>
      if String.eqb k k' then d' else (k', v') :: dict_del k d'
  end.

Definition dict_keys (d : pydict) : list string := map fst d.

(** [k in d] *)
Definition dict_mem (k : string) (d : pydict) : bool :=
  match dict_get k d with Some _ => true | None => false end.

(** The keys of a dictionary are pairwise distinct. *)
Fixpoint unique_keys (d : pydict) : bool :=
  match d with
  | [] => true
  | (k, _) :: d' => negb (dict_mem k d') && unique_keys d'
  end.
End Dict.

(** ** Parsed JSON values, as [json.load] returns them *)

#[warnings="-register-all"]
Inductive json : Type :=
| JNull
| JBool (b : bool)
| JInt (n : Z)
| JFloat (x : float)
| JStr (s : string)
| JArr (items : list json)
| JObj (fields : list (string * json)).

(** ** Exceptions

    [pyexc] stands for an instance of [Exception]: its class and the text
    [str(e)] gives.  The texts of exceptions raised by the interpreter are
    indicative; the program never inspects them. *)

Inductive exc_class : Type :=
| AttributeError | TypeError | KeyError | ValueError | IndexError
| RuntimeError
| UnicodeDecodeError
| OtherException (name : string).

Record pyexc : Type := Exc { exc_cls : exc_class; exc_str : string }.

(** ** Printed output and exceptions: a small monad *)

Definition Run (A : Type) : Type := (list string * (pyexc + A))%type.

Definition ret {A} (x : A) : Run A := ([], inr x).

Definition bind {A B} (m : Run A) (f : A -> Run B) : Run B :=
  match m with
  | (out, inl e) => (out, inl e)
  | (out, inr a) => let (out', r) := f a in (out ++ out', r)
  end.

Definition print (line : string) : Run unit := ([line], inr tt).

(** An operation that prints nothing. *)
Definition lift {A} (r : pyexc + A) : Run A := ([], r).

Notation "x <- m ;; k" := (bind m (fun x => k))
  (at level 61, m at next level, right associativity).
Notation "m ;;; k" := (bind m (fun _ => k))
  (at level 61, right associativity).

(** [for x in xs: acc = body acc x], stopping at the first exception. *)
Fixpoint for_each {A S} (body : S -> A -> Run S) (xs : list A) (acc : S) : Run S :=
  match xs with
  | [] => ret acc
  | x :: xs' => acc' <- body acc x ;; for_each body xs' acc'
  end.

Definition stdout {A} (r : Run A) : list string := fst r.
Definition outcome {A} (r : Run A) : pyexc + A := snd r.

(** ** Python operations the loader applies to parsed JSON *)

Definition type_name (v : json) : string :=
  match v with
  | JNull => "NoneType" | JBool _ => "bool" | JInt _ => "int"
  | JFloat _ => "float" | JStr _ => "str" | JArr _ => "list" | JObj _ => "dict"
  end.

Definition no_attribute (v : json) (attr : string) : pyexc :=
  Exc AttributeError ("'" ++ type_name v ++ "' object has no attribute '" ++ attr ++ "'").

(** [v.get(key, default)] *)
Definition py_get (v : json) (key : string) (default : json) : pyexc + json :=
  match v with
  | JObj d => inr (match dict_get key d with Some x => x | None => default end)
  | _ => inl (no_attribute v "get")
  end.

(** [v.items()] *)
Definition py_items (v : json) : pyexc + list (string * json) :=
  match v with
  | JObj d => inr d
  | _ => inl (no_attribute v "items")
  end.

Definition is_str (k : string) (v : json) : bool :=
  match v with JStr s => String.eqb k s | _ => false end.

Definition is_substring (k s : string) : bool :=
  match String.index 0 k s with Some _ => true | None => false end.

(** [k in v] for a string [k]: key membership in a dict, element membership in
    a list, substring test on a string, [TypeError] otherwise. *)
Definition py_contains (k : string) (v : json) : pyexc + bool :=
  match v with
  | JObj d => inr (dict_mem k d)
  | JArr l => inr (existsb (is_str k) l)
  | JStr s => inr (is_substring k s)
  | _ => inl (Exc TypeError ("argument of type '" ++ type_name v ++ "' is not iterable"))
  end.

(** [v[k]] for a string [k] *)
Definition py_getitem (v : json) (k : string) : pyexc + json :=
  match v with
  | JObj d =>
      match dict_get k d with
      | Some x => inr x
      | None => inl (Exc KeyError ("'" ++ k ++ "'"))
      end
  | JArr _ => inl (Exc TypeError "list indices must be integers or slices, not str")
  | JStr _ => inl (Exc TypeError "string indices must be integers, not 'str'")
  | _ => inl (Exc TypeError ("'" ++ type_name v ++ "' object is not subscriptable"))
  end.

(** ** NumPy arrays *)

Inductive dtype : Type := float32 | float64.

(** Shape and row-major data; the elements of a [float32] array are kept as
    the doubles [tolist] would return for them. *)
Record ndarray : Type :=
  NdArray { arr_dtype : dtype; arr_shape : list nat; arr_data : list float }.

Definition same_shape (s : list nat) (o : option (list nat)) : bool :=
  match o with
  | Some s' => if list_eq_dec Nat.eq_dec s s' then true else false
  | None => false
  end.

(** Shape discovery of [np.array]: a list whose items all have one shape adds
    a dimension, anything else is a scalar; [None] is a ragged nesting. *)
Fixpoint array_shape (v : json) : option (list nat) :=
  match v with
  | JArr items =>
      match map array_shape items with
      | [] => Some [0]
      | None :: _ => None
      | Some s :: rest =>
          if forallb (same_shape s) rest then Some (length items :: s) else None
      end
  | _ => Some []
  end.

(** The scalars of a nesting, in row-major order. *)
Fixpoint array_leaves (v : json) : list json :=
  match v with
  | JArr items => flat_map array_leaves items
  | _ => [v]
  end.

Fixpoint map_exc {A B} (f : A -> pyexc + B) (l : list A) : pyexc + list B :=
  match l with
  | [] => inr []
  | x :: l' =>
      match f x with
      | inl e => inl e
      | inr y => match map_exc f l' with inl e => inl e | inr ys => inr (y :: ys) end
      end
  end.

(** [a.shape[0]] *)
Definition shape0 (a : ndarray) : pyexc + nat :=
  match arr_shape a with
  | n :: _ => inr n
  | [] => inl (Exc IndexError "tuple index out of range")
  end.

Fixpoint rows_of (nrows ncols : nat) (data : list float) : list (list float) :=
  match nrows with
  | O => []
  | S n => firstn ncols data :: rows_of n ncols (skipn ncols data)
  end.

(** [a.tolist()] for a two-dimensional array *)
Definition tolist2 (a : ndarray) : list (list float) :=
  match arr_shape a with
  | [r; c] => rows_of r c (arr_data a)
  | _ => []
  end.

Fixpoint list_set {A} (i : nat) (x : A) (l : list A) : list A :=
  match l, i with
  | [], _ => []
  | _ :: l', O => x :: l'
  | y :: l', S i' => y :: list_set i' x l'
  end.

(** [a[i, j] = x]; the target keeps its dtype. *)
Definition setitem2 (a : ndarray) (i j : nat) (x : float) : ndarray :=
  match arr_shape a with
  | [_; c] => NdArray (arr_dtype a) (arr_shape a) (list_set (i * c + j) x (arr_data a))
  | _ => a
  end.

Definition identity_row (n i : nat) : list float :=
  map (fun j => if Nat.eqb i j then 1%float else 0%float) (seq 0 n).

(** [np.identity(n, dtype=dt)] *)
Definition np_identity (n : nat) (dt : dtype) : ndarray :=
  NdArray dt [n; n] (flat_map (identity_row n) (seq 0 n)).

(** [T[i, j] = f i j] for every [i] in [rows] and [j] in [cols] *)
Definition assign_cells (T : ndarray) (rows cols : list nat) (f : nat -> nat -> float) : ndarray :=
  fold_left (fun T i => fold_left (fun T j => setitem2 T i j (f i j)) cols T) rows T.

(** ** What OpenCV returns

    [cv2.solvePnP] returns its rotation and translation vectors as 3x1 arrays
    of doubles and [cv2.Rodrigues] turns such a vector into a 3x3 matrix; the
    types below carry these shapes. *)

Record vec3 : Type := Vec3 { v0 : float; v1 : float; v2 : float }.
Record mat3 : Type := Mat3 { row0 : vec3; row1 : vec3; row2 : vec3 }.

Definition vec3_tolist (v : vec3) : list float := [v0 v; v1 v; v2 v].

(** [m.tolist()] *)
Definition mat3_tolist (m : mat3) : list (list float) :=
  [vec3_tolist (row0 m); vec3_tolist (row1 m); vec3_tolist (row2 m)].

Definition mat3_get (m : mat3) (i j : nat) : float :=
  nth j (nth i (mat3_tolist m) []) 0%float.

(** ** The data of the program *)

(** One entry of [structured_data]. *)
Record camera : Type := Camera {
  cam_K : ndarray;
  cam_dist : ndarray;
  cam_points_3d : ndarray;
  cam_points_2d : ndarray
}.

(** The dictionary [calculate_extrinsics] returns. *)
Record extrinsics : Type := Extrinsics {
  rotation_matrix_R : list (list float);
  translation_vector_t : list float;
  T_homogeneous_matrix_4x4 : list (list float);
  R_Rodrigues_vector : list float
}.

(** One value of [results["cameras"]]. *)
Inductive entry : Type :=
| Pose (e : extrinsics)
| ErrorEntry (message : string).

(** What [open] and [json.load] make of a file that exists: text that is
    no JSON ([JSONDecodeError] with the given text), a parsed value, or an
    exception of another class, such as [UnicodeDecodeError] for bytes that
    are no text in the expected encoding. *)
Inductive file_content : Type :=
| Malformed (decode_error : string)
| Unloadable (e : pyexc)
| Document (v : json).

(** The files by name; a name without binding is a file that does not exist. *)
Definition filesystem := pydict file_content.

(** How reading a file fails: with one of the two exceptions the loader
    catches, or with another one. *)
Inductive load_error : Type :=
| FileNotFound (filename : string)
| JSONDecode (text : string)
| Uncaught (e : pyexc).

(** [with open(path, 'r') as f: json.load(f)] *)
Definition json_load (fs : filesystem) (path : string) : load_error + json :=
  match dict_get path fs with
  | None => inl (FileNotFound path)
  | Some (Malformed err) => inl (JSONDecode err)
  | Some (Unloadable e) => inl (Uncaught e)
  | Some (Document v) => inr v
  end.

Definition json_floats (l : list float) : json := JArr (map JFloat l).
Definition json_rows (l : list (list float)) : json := JArr (map json_floats l).

Definition json_of_entry (e : entry) : json :=
  match e with
  | Pose x =>
      JObj [("rotation_matrix_R", json_rows (rotation_matrix_R x));
            ("translation_vector_t", json_floats (translation_vector_t x));
            ("T_homogeneous_matrix_4x4", json_rows (T_homogeneous_matrix_4x4 x));
            ("R_Rodrigues_vector", json_floats (R_Rodrigues_vector x))]
  | ErrorEntry msg => JObj [("error", JStr msg)]
  end.

(** The value [json.dump] serialises: [{"cameras": {...}}]. *)
Definition json_of_results (cameras : pydict entry) : json :=
  JObj [("cameras", JObj (map (fun kv => (fst kv, json_of_entry (snd kv))) cameras))].

Definition newline : string := String (ascii_of_nat 10) EmptyString.

Definition INTRINSICS_FILE : string := "intrinsics.json".
Definition OBSERVATIONS_FILE : string := "observations.json".
Definition OUTPUT_FILE : string := "extrinsics_result.json".

Section Program.

(** The largest number of dimensions NumPy accepts. *)
Variable NPY_MAXDIMS : nat.

(** NumPy's conversion of one scalar (number, boolean, [None], string, or a
    dict, which it rejects) to a 32-bit float. *)
Variable np_float32 : json -> pyexc + float.

(** [cv2.solvePnP(object_points, image_points, K, dist,
    flags=cv2.SOLVEPNP_ITERATIVE)]: an exception, or the success flag with
    the rotation and translation vectors. *)
Variable solvePnP : ndarray -> ndarray -> ndarray -> ndarray -> pyexc + (bool * vec3 * vec3).

(** [cv2.Rodrigues(rvec)]: the rotation matrix and the Jacobian. *)
Variable Rodrigues : vec3 -> pyexc + (mat3 * ndarray).

(** [np.array(v, dtype=np.float32)] *)
Definition np_array (v : json) : pyexc + ndarray :=
  match array_shape v with
  | None =>
      inl (Exc ValueError "setting an array element with a sequence. The requested array has an inhomogeneous shape.")
  | Some s =>
      if Nat.ltb NPY_MAXDIMS (length s)
      then inl (Exc ValueError "setting an array element with a sequence. The requested array would exceed the maximum number of dimension.")
      else
        match map_exc np_float32 (array_leaves v) with
        | inl e => inl e
        | inr xs => inr (NdArray float32 s xs)
        end
  end.

(** *** 1. Data loading *)

(** The body of the loop over [obs_cameras.items()]. *)
Definition load_camera (intrinsics_data : json)
    (structured_data : pydict camera) (item : string * json) : Run (pydict camera) :=
  let (cam_id, obs_data) := item in
  present <- lift (py_contains cam_id intrinsics_data) ;;
  if negb present then
    print ("Warning: Intrinsics for " ++ cam_id ++ " not found. Skipping.") ;;;
    ret structured_data
  else
    int_data <- lift (py_getitem intrinsics_data cam_id) ;;
    k_json <- lift (py_getitem int_data "K") ;;
    K <- lift (np_array k_json) ;;
    dist_json <- lift (py_getitem int_data "distortion") ;;
    dist <- lift (np_array dist_json) ;;
    p3_json <- lift (py_getitem obs_data "points_3d") ;;
    points_3d <- lift (np_array p3_json) ;;
    p2_json <- lift (py_getitem obs_data "points_2d") ;;
    points_2d <- lift (np_array p2_json) ;;
    let structured_data := dict_set cam_id (Camera K dist points_3d points_2d) structured_data in
    n3 <- lift (shape0 points_3d) ;;
    n2 <- lift (shape0 points_2d) ;;
    if negb (Nat.eqb n3 n2) then
      print ("Error: Mismatch in 3D/2D point count for " ++ cam_id ++ ". Skipping.") ;;;
      ret (dict_del cam_id structured_data)
    else ret structured_data.

(** The part of the loader after both documents are parsed. *)
Definition structure_data (intrinsics_data observations_data : json) : Run (pydict camera) :=
  obs_cameras <- lift (py_get observations_data "cameras" (JObj [])) ;;
  items <- lift (py_items obs_cameras) ;;
  for_each (load_camera intrinsics_data) items [].

Definition load_calibration_data (fs : filesystem)
    (intrinsics_path observations_path : string) : Run (pydict camera) :=
  print ("Loading data from " ++ intrinsics_path ++ " and " ++ observations_path ++ "...") ;;;
  match json_load fs intrinsics_path with
  | inl err =>
      match err with
      | FileNotFound name => print ("ERROR: Missing file " ++ name ++ ". Aborting.") ;;; ret []
      | JSONDecode e => print ("ERROR: Invalid JSON format in a file. " ++ e ++ ". Aborting.") ;;; ret []
      | Uncaught e => lift (inl e)
      end
  | inr intrinsics_data =>
      match json_load fs observations_path with
      | inl err =>
          match err with
          | FileNotFound name => print ("ERROR: Missing file " ++ name ++ ". Aborting.") ;;; ret []
          | JSONDecode e => print ("ERROR: Invalid JSON format in a file. " ++ e ++ ". Aborting.") ;;; ret []
          | Uncaught e => lift (inl e)
          end
      | inr observations_data => structure_data intrinsics_data observations_data
      end
  end.

(** *** 2. Extrinsics calculation *)

Definition not_converged : pyexc := Exc RuntimeError "cv2.solvePnP failed to converge.".

(** [T_matrix] after the two slice assignments. *)
Definition homogeneous (R_matrix : mat3) (tvec : vec3) : ndarray :=
  let T_matrix := np_identity 4 float64 in
  let T_matrix := assign_cells T_matrix [0; 1; 2] [0; 1; 2] (mat3_get R_matrix) in
  assign_cells T_matrix [0; 1; 2] [3] (fun i _ => nth i (vec3_tolist tvec) 0%float).

Definition calculate_extrinsics (camera_data : camera) : pyexc + extrinsics :=
  let K := cam_K camera_data in
  let dist := cam_dist camera_data in
  let object_points := cam_points_3d camera_data in
  let image_points := cam_points_2d camera_data in
  match solvePnP object_points image_points K dist with
  | inl e => inl e
  | inr (success, rvec, tvec) =>
      if negb success then inl not_converged
      else
        match Rodrigues rvec with
        | inl e => inl e
        | inr (R_matrix, _) =>
            let T_matrix := homogeneous R_matrix tvec in
            inr (Extrinsics (mat3_tolist R_matrix) (vec3_tolist tvec)
                            (tolist2 T_matrix) (vec3_tolist rvec))
        end
  end.

(** *** 3. Main script *)

(** The body of the loop over [all_camera_data.items()], the [try] with
    its [except Exception]. *)
Definition process_camera (cameras : pydict entry) (item : string * camera) : Run (pydict entry) :=
  let (cam_id, cam_data) := item in
  print (newline ++ "Processing " ++ cam_id ++ "...") ;;;
  match calculate_extrinsics cam_data with
  | inr extrinsics =>
      let cameras := dict_set cam_id (Pose extrinsics) cameras in
      print ("SUCCESS: Extrinsics calculated for " ++ cam_id ++ ".") ;;;
      ret cameras
  | inl e =>
      print ("FAILURE: Could not calculate extrinsics for " ++ cam_id ++ ". Error: " ++ exc_str e) ;;;
      ret (dict_set cam_id (ErrorEntry (exc_str e)) cameras)
  end.

(** What the report holds for one camera: its pose, or the text of the
    exception its solve raised. *)
Definition entry_of (cam_data : camera) : entry :=
  match calculate_extrinsics cam_data with
  | inr extrinsics => Pose extrinsics
  | inl e => ErrorEntry (exc_str e)
  end.

(** The lines one turn of the orchestrator's loop prints. *)
Definition camera_lines (item : string * camera) : list string :=
  [(newline ++ "Processing " ++ fst item ++ "...")%string;
   match calculate_extrinsics (snd item) with
   | inr _ => ("SUCCESS: Extrinsics calculated for " ++ fst item ++ ".")%string
   | inl e => ("FAILURE: Could not calculate extrinsics for " ++ fst item ++ ". Error: " ++ exc_str e)%string
   end].

Definition process_all (all_camera_data : pydict camera) : Run (pydict entry) :=
  for_each process_camera all_camera_data [].

(** The run of the program on a file system: what it prints, and either the
    exception that ends it or the document it dumps into [OUTPUT_FILE]
    ([None] when it returns before opening that file). *)
Definition main (fs : filesystem) : Run (option json) :=
  all_camera_data <- load_calibration_data fs INTRINSICS_FILE OBSERVATIONS_FILE ;;
  match all_camera_data with
  | [] => print "No valid camera data loaded. Exiting." ;;; ret None
  | _ :: _ =>
      cameras <- process_all all_camera_data ;;
      let written := json_of_results cameras in
      print (newline ++ "--- Processing Complete ---") ;;;
      print ("Results saved to: " ++ OUTPUT_FILE) ;;;
      ret (Some written)
  end.

(** The file system the run leaves behind. *)
Definition files_after (fs : filesystem) : filesystem :=
  match outcome (main fs) with
  | inr (Some doc) => dict_set OUTPUT_FILE (Document doc) fs
  | _ => fs
  end.

End Program.

(** ** Reading the documents the way the specification speaks of them *)

(** The camera id is a key of the intrinsics document. *)
Definition has_key (doc : json) (k : string) : bool :=
  match doc with JObj d => dict_mem k d | _ => false end.

(** The value lacks the field: it is no object, or an object without it. *)
Definition lacks (v : json) (field : string) : bool := negb (has_key v field).

(** The [cameras] object of the observations document. *)
Definition observed_cameras (obs : json) : pydict json :=
  match py_get obs "cameras" (JObj []) with
  | inr (JObj cams) => cams
  | _ => []
  end.

(** The number of points of an observation field holding a list. *)
Definition point_count (obs_data : json) (field : string) : option nat :=
  match py_getitem obs_data field with
  | inr (JArr items) => Some (length items)
  | _ => None
  end.

(** Both point lists are there and have equally many points. *)
Definition counts_agree (obs_data : json) : bool :=
  match point_count obs_data "points_3d", point_count obs_data "points_2d" with
  | Some n3, Some n2 => Nat.eqb n3 n2
  | _, _ => false
  end.

(** An item of the [cameras] object that passes both load-time checks. *)
Definition passes_validation (intr : json) (item : string * json) : bool :=
  has_key intr (fst item) && counts_agree (snd item).

(** The [cameras] mapping of a written report. *)
Definition document_cameras (doc : json) : pydict json :=
  match py_getitem doc "cameras" with
  | inr (JObj cs) => cs
  | _ => []
  end.

(** The cameras of the report a run writes; none when it writes no report. *)
Definition written_cameras (r : Run (option json)) : pydict json :=
  match outcome r with
  | inr (Some doc) => document_cameras doc
  | _ => []
  end.

Definition all_float32 (c : camera) : Prop :=
  arr_dtype (cam_K c) = float32 /\ arr_dtype (cam_dist c) = float32 /\
  arr_dtype (cam_points_3d c) = float32 /\ arr_dtype (cam_points_2d c) = float32.

(** The value is a double, or a nesting of lists of doubles. *)
Fixpoint only_floats (v : json) : bool :=
  match v with
  | JFloat _ => true
  | JArr items => forallb only_floats items
  | _ => false
  end.

(** Every field of an object holds doubles only. *)
Definition fields_only_floats (v : json) : bool :=
  match v with
  | JObj fields => forallb (fun kv => only_floats (snd kv)) fields
  | _ => false
  end.

(** Reading the file fails with an exception the loader catches: the file
    is absent, or its text is no JSON. *)
Definition caught_failure (fs : filesystem) (path : string) : bool :=
  match json_load fs path with
  | inl (FileNotFound _) | inl (JSONDecode _) => true
  | _ => false
  end.

(** The file is read and parsed. *)
Definition parses (fs : filesystem) (path : string) : bool :=
  match json_load fs path with inr _ => true | inl _ => false end.

Definition raises {A} (r : Run A) : Prop := exists e, outcome r = inl e.

(** ** Sample inputs

    A small installation used to run the definitions: five observed cameras,
    of which [cam4] has no intrinsics and [cam5] has three 3D points for two
    2D points, and stand-ins for the library calls. *)

Module Sample.

Definition ints (l : list Z) : json := JArr (map JInt l).

Definition points (n : nat) (p : list Z) : json := JArr (repeat (ints p) n).

Definition intrinsics_entry : json :=
  JObj [("K", JArr [ints [800; 0; 320]; ints [0; 800; 240]; ints [0; 0; 1]]%Z);
        ("distortion", ints [0; 0; 0; 0; 0]%Z)].

Definition observation (n3 n2 : nat) : json :=
  JObj [("points_3d", points n3 [0; 0; 1]%Z); ("points_2d", points n2 [320; 240]%Z)].

Definition intrinsics : json :=
  JObj [("cam1", intrinsics_entry); ("cam2", intrinsics_entry);
        ("cam3", intrinsics_entry); ("cam5", intrinsics_entry)].

Definition cameras : pydict json :=
  [("cam1", observation 6 6); ("cam2", observation 3 3); ("cam3", observation 4 4);
   ("cam4", observation 6 6); ("cam5", observation 3 2)].

Definition observations : json := JObj [("cameras", JObj cameras)].

Definition files : filesystem :=
  [(INTRINSICS_FILE, Document intrinsics); (OBSERVATIONS_FILE, Document observations)].

(** Integers and doubles are taken as they are, anything else is refused. *)
Definition to_float32 (v : json) : pyexc + float :=
  match v with
  | JInt n => inr (PrimFloat.of_uint63 (Uint63.of_Z n))
  | JFloat x => inr x
  | _ => inl (Exc TypeError "float() argument must be a string or a real number")
  end.

(** Refuses fewer than four points, reports failure on exactly four, and
    otherwise returns a fixed pose. *)
Definition solvePnP (object_points image_points K dist : ndarray)
    : pyexc + (bool * vec3 * vec3) :=
  match arr_shape object_points with
  | n :: _ =>
      if Nat.ltb n 4 then inl (Exc (OtherException "cv2.error") "not enough points")
      else inr (negb (Nat.eqb n 4), Vec3 0 0 0, Vec3 1 2 3)
  | [] => inl (Exc (OtherException "cv2.error") "bad shape")
  end.

Definition Rodrigues (rvec : vec3) : pyexc + (mat3 * ndarray) :=
  inr (Mat3 (Vec3 1 0 0) (Vec3 0 1 0) (Vec3 0 0 1),
       NdArray float64 [3; 9] (repeat 0%float 27)).

(** A loaded camera with [n] points. *)
Definition camera_with (n : nat) : camera :=
  Camera (NdArray float32 [3; 3] [800; 0; 320; 0; 800; 240; 0; 0; 1]%float)
         (NdArray float32 [5] [0; 0; 0; 0; 0]%float)
         (NdArray float32 [n; 3] (concat (repeat [0; 0; 1]%float n)))
         (NdArray float32 [n; 2] (concat (repeat [320; 240]%float n))).

(** What the loader makes of [files]. *)
Definition loaded : pydict camera :=
  [("cam1", camera_with 6); ("cam2", camera_with 3); ("cam3", camera_with 4)].

(** The pose the stand-ins give a camera with more than four points. *)
Definition pose : extrinsics :=
  Extrinsics [[1; 0; 0]; [0; 1; 0]; [0; 0; 1]]%float [1; 2; 3]%float
             [[1; 0; 0; 1]; [0; 1; 0; 2]; [0; 0; 1; 3]; [0; 0; 0; 1]]%float
             [0; 0; 0]%float.

(** The observations document names its cameras [frames]. *)
Definition files_without_cameras : filesystem :=
  [(INTRINSICS_FILE, Document intrinsics);
   (OBSERVATIONS_FILE, Document (JObj [("frames", JObj cameras)]))].

Definition load := load_calibration_data 32 to_float32.
Definition solve := calculate_extrinsics solvePnP Rodrigues.
Definition run := main 32 to_float32 solvePnP Rodrigues.

(** The intrinsics entry of [cam1] has lost its [K] field. *)
Definition broken_intrinsics : json :=
  JObj [("cam1", JObj [("distortion", ints [0; 0; 0; 0; 0]%Z)])].

Definition broken_observations : json :=
  JObj [("cameras", JObj [("cam1", observation 6 6)])].

Definition broken_files : filesystem :=
  [(INTRINSICS_FILE, Document broken_intrinsics);
   (OBSERVATIONS_FILE, Document broken_observations)].

End Sample.

(** ** The camera of one loop turn, and what the loader prints about it *)

Definition and_then {A B} (r : pyexc + A) (f : A -> pyexc + B) : pyexc + B :=
  match r with inl e => inl e | inr a => f a end.

Section Conversion.

Variable NPY_MAXDIMS : nat.
Variable np_float32 : json -> pyexc + float.

(** The value of the dict literal of the loader's loop (source lines 42 to
    57): the four lookups and conversions, in the order Python evaluates
    them. *)
Definition build_camera (intrinsics_data : json) (cam_id : string) (obs_data : json)
    : pyexc + camera :=
  and_then (py_getitem intrinsics_data cam_id) (fun int_data =>
  and_then (py_getitem int_data "K") (fun k_json =>
  and_then (np_array NPY_MAXDIMS np_float32 k_json) (fun K =>
  and_then (py_getitem int_data "distortion") (fun dist_json =>
  and_then (np_array NPY_MAXDIMS np_float32 dist_json) (fun dist =>
  and_then (py_getitem obs_data "points_3d") (fun p3_json =>
  and_then (np_array NPY_MAXDIMS np_float32 p3_json) (fun points_3d =>
  and_then (py_getitem obs_data "points_2d") (fun p2_json =>
  and_then (np_array NPY_MAXDIMS np_float32 p2_json) (fun points_2d =>
  inr (Camera K dist points_3d points_2d)))))))))).

(** The dict literal has a value and both point arrays have a first
    dimension: the turn of the loop for this item does not raise. *)
Definition convertible (intrinsics_data : json) (item : string * json) : bool :=
  match build_camera intrinsics_data (fst item) (snd item) with
  | inr c =>
      match shape0 (cam_points_3d c), shape0 (cam_points_2d c) with
      | inr _, inr _ => true
      | _, _ => false
      end
  | inl _ => false
  end.

(** The loaded camera was built from an item of the [cameras] object with
    its own id, and both its point arrays have as many rows as that item
    has points of either kind. *)
Definition loaded_from (intr : json) (cams : pydict json) (kc : string * camera) : Prop :=
  exists o n,
    In (fst kc, o) cams /\
    build_camera intr (fst kc) o = inr (snd kc) /\
    shape0 (cam_points_3d (snd kc)) = inr n /\
    shape0 (cam_points_2d (snd kc)) = inr n /\
    point_count o "points_3d" = Some n /\
    point_count o "points_2d" = Some n.

End Conversion.

Definition warning_line (cam_id : string) : string :=
  "Warning: Intrinsics for " ++ cam_id ++ " not found. Skipping.".

Definition mismatch_line (cam_id : string) : string :=
  "Error: Mismatch in 3D/2D point count for " ++ cam_id ++ ". Skipping.".

(** What the loader prints about one observed camera. *)
Definition diagnostic (intr : json) (item : string * json) : list string :=
  if has_key intr (fst item) then
    if counts_agree (snd item) then [] else [mismatch_line (fst item)]
  else [warning_line (fst item)].

(** The keys of a JSON object, in order. *)
Definition object_keys (v : json) : list string :=
  match v with JObj d => dict_keys d | _ => [] end.

Definition pose_keys : list string :=
  ["rotation_matrix_R"; "translation_vector_t"; "T_homogeneous_matrix_4x4";
   "R_Rodrigues_vector"].

(** ** Further sample inputs *)

Module Cases.

(** The intrinsics document is an array. *)
Definition files_intrinsics_array : filesystem :=
  [(INTRINSICS_FILE, Document (JArr [Sample.intrinsics_entry]));
   (OBSERVATIONS_FILE, Document Sample.observations)].

(** The observations document is an array. *)
Definition files_observations_array : filesystem :=
  [(INTRINSICS_FILE, Document Sample.intrinsics);
   (OBSERVATIONS_FILE, Document (JArr [JObj Sample.cameras]))].

(** The [cameras] field of the observations document is an array. *)
Definition files_cameras_array : filesystem :=
  [(INTRINSICS_FILE, Document Sample.intrinsics);
   (OBSERVATIONS_FILE, Document (JObj [("cameras", JArr [])]))].

(** Intrinsics for cameras that were not observed. *)
Definition other_intrinsics : pydict json :=
  [("cam7", Sample.intrinsics_entry); ("cam8", JNull)].

Definition files_no_overlap : filesystem :=
  [(INTRINSICS_FILE, Document (JObj other_intrinsics));
   (OBSERVATIONS_FILE, Document Sample.observations)].

(** The sample intrinsics with an entry more, in another order. *)
Definition shuffled_intrinsics : pydict json :=
  [("cam9", JStr "spare"); ("cam5", Sample.intrinsics_entry);
   ("cam3", Sample.intrinsics_entry); ("cam2", Sample.intrinsics_entry);
   ("cam1", Sample.intrinsics_entry)].

Definition files_shuffled : filesystem :=
  [(OBSERVATIONS_FILE, Document Sample.observations);
   (INTRINSICS_FILE, Document (JObj shuffled_intrinsics))].

(** The observations of [cam1] hold a number where the 3D points belong. *)
Definition files_scalar_points : filesystem :=
  [(INTRINSICS_FILE, Document Sample.intrinsics);
   (OBSERVATIONS_FILE,
    Document (JObj [("cameras",
      JObj [("cam1", JObj [("points_3d", JInt 5); ("points_2d", Sample.points 6 [320; 240]%Z)])])]))].

(** What [json.load] raises on a file whose first byte is 0xff. *)
Definition not_utf8 : pyexc :=
  Exc UnicodeDecodeError
      "'utf-8' codec can't decode byte 0xff in position 0: invalid start byte".

(** The intrinsics file holds bytes that are no UTF-8 text. *)
Definition files_intrinsics_not_text : filesystem :=
  [(INTRINSICS_FILE, Unloadable not_utf8);
   (OBSERVATIONS_FILE, Document Sample.observations)].

(** The same intrinsics file, and no observations file. *)
Definition files_intrinsics_not_text_alone : filesystem :=
  [(INTRINSICS_FILE, Unloadable not_utf8)].

(** The observations document is the empty array. *)
Definition files_observations_empty_array : filesystem :=
  [(INTRINSICS_FILE, Document Sample.intrinsics);
   (OBSERVATIONS_FILE, Document (JArr []))].

(** The observations file holds text that is no JSON. *)
Definition files_observations_malformed : filesystem :=
  [(INTRINSICS_FILE, Document Sample.intrinsics);
   (OBSERVATIONS_FILE, Malformed "Expecting value: line 1 column 1 (char 0)")].

End Cases.

(** * Properties *)

Unset Implicit Arguments.

(** ** Dictionaries *)

Section DictFacts.
Variable V : Type.
Implicit Types (d : pydict V) (k : string) (v : V).

Lemma dict_mem_In k d : dict_mem k d = true <-> In k (dict_keys d).
Proof.
  unfold dict_mem. induction d as [|[k' v'] d IH]; simpl.
  - split; [discriminate | tauto].
  - destruct (String.eqb_spec k k') as [->|Hne].
    + split; auto.
    + rewrite IH. split; [auto | intros [H|H]; [congruence | exact H]].
Qed.

Lemma dict_mem_false k d : dict_mem k d = false <-> ~ In k (dict_keys d).
Proof.
  rewrite <- dict_mem_In. destruct (dict_mem k d); split; congruence.
Qed.

Lemma dict_get_set_same k v d : dict_get k (dict_set k v d) = Some v.
Proof.
  induction d as [|[k' v'] d IH]; simpl.
  - now rewrite String.eqb_refl.
  - destruct (String.eqb k k') eqn:E; simpl.
    + now rewrite String.eqb_refl.
    + now rewrite E.
Qed.

Lemma dict_get_set_other k k' v d :
  k <> k' -> dict_get k' (dict_set k v d) = dict_get k' d.
Proof.
  intros Hne. induction d as [|[k0 v0] d IH]; simpl.
  - destruct (String.eqb_spec k' k); congruence.
  - destruct (String.eqb_spec k k0) as [->|Hk]; simpl.
    + destruct (String.eqb_spec k' k0); congruence.
    + now rewrite IH.
Qed.

Lemma unique_keys_dict_set k v d :
  unique_keys d = true -> unique_keys (dict_set k v d) = true.
Proof.
  induction d as [|[k' v'] d IH]; simpl; [reflexivity|].
  rewrite andb_true_iff, negb_true_iff. intros [Hfresh Hu].
  destruct (String.eqb_spec k k') as [->|Hne]; simpl.
  - now rewrite Hfresh, Hu.
  - rewrite IH by exact Hu. unfold dict_mem in *.
    rewrite dict_get_set_other by exact Hne. now rewrite Hfresh.
Qed.

Lemma dict_get_del_None k k' d :
  dict_get k' d = None -> dict_get k' (dict_del k d) = None.
Proof.
  induction d as [|[k0 v0] d IH]; simpl; [reflexivity|].
  destruct (String.eqb k' k0) eqn:E0; [discriminate|]. intros H.
  destruct (String.eqb k k0); simpl; [exact H|]. rewrite E0. auto.
Qed.

Lemma unique_keys_dict_del k d :
  unique_keys d = true -> unique_keys (dict_del k d) = true.
Proof.
  induction d as [|[k' v'] d IH]; simpl; [reflexivity|].
  rewrite andb_true_iff, negb_true_iff. intros [Hfresh Hu].
  destruct (String.eqb k k'); [exact Hu|]. simpl.
  rewrite IH by exact Hu. unfold dict_mem in *.
  destruct (dict_get k' d) eqn:E; [discriminate|].
  now rewrite dict_get_del_None.
Qed.

Lemma dict_set_fresh k v d : dict_mem k d = false -> dict_set k v d = d ++ [(k, v)].
Proof.
  unfold dict_mem. induction d as [|[k' v'] d IH]; simpl; intros H.
  - reflexivity.
  - destruct (String.eqb k k'); [discriminate|]. now rewrite IH.
Qed.

Lemma dict_del_fresh k v d : dict_mem k d = false -> dict_del k (d ++ [(k, v)]) = d.
Proof.
  unfold dict_mem. induction d as [|[k' v'] d IH]; simpl; intros H.
  - now rewrite String.eqb_refl.
  - destruct (String.eqb k k'); [discriminate|]. now rewrite IH.
Qed.

Lemma dict_keys_app d d' : dict_keys (d ++ d') = dict_keys d ++ dict_keys d'.
Proof. apply map_app. Qed.

Lemma unique_keys_NoDup d : unique_keys d = true <-> NoDup (dict_keys d).
Proof.
  induction d as [|[k v] d IH]; simpl.
  - split; [constructor | reflexivity].
  - rewrite andb_true_iff, negb_true_iff, dict_mem_false, IH.
    split; [intros [? ?]; now constructor | intros H; inversion H; auto].
Qed.

Lemma dict_get_In k v d : dict_get k d = Some v -> In (k, v) d.
Proof.
  induction d as [|[k' v'] d IH]; simpl; [discriminate|].
  destruct (String.eqb_spec k k') as [->|Hne]; intros H.
  - left. congruence.
  - right. auto.
Qed.

Lemma In_dict_get k v d : unique_keys d = true -> In (k, v) d -> dict_get k d = Some v.
Proof.
  induction d as [|[k' v'] d IH]; simpl; [tauto|].
  rewrite andb_true_iff, negb_true_iff. intros [Hfresh Hu] [Heq|Hin].
  - inversion Heq; subst. now rewrite String.eqb_refl.
  - destruct (String.eqb_spec k k') as [->|Hne]; [|auto].
    apply dict_mem_false in Hfresh. exfalso. apply Hfresh.
    change k' with (fst (k', v)). now apply in_map.
Qed.

End DictFacts.

Lemma dict_get_map {V W} (f : V -> W) k (d : pydict V) :
    dict_get k (map (fun kv => (fst kv, f (snd kv))) d) = option_map f (dict_get k d).
Proof.
  induction d as [|[k' v] d IH]; simpl; [reflexivity|].
  now destruct (String.eqb k k').
Qed.

Lemma dict_keys_map {V W} (f : V -> W) (d : pydict V) :
  dict_keys (map (fun kv => (fst kv, f (snd kv))) d) = dict_keys d.
  Proof. unfold dict_keys. rewrite map_map. reflexivity. Qed.

Lemma NoDup_keys_filter {V} (p : string * V -> bool) (d : pydict V) :
  NoDup (dict_keys d) -> NoDup (dict_keys (filter p d)).
Proof.
  induction d as [|kv d IH]; simpl; intros H; [constructor|].
  inversion H as [|? ? Hk Hd]; subst.
  destruct (p kv); simpl; [|auto].
  constructor; [|auto]. intros Hin. apply Hk.
  unfold dict_keys in *. apply in_map_iff in Hin as [x [Hx Hin]].
  apply filter_In in Hin as [Hin _]. rewrite <- Hx. now apply in_map.
Qed.

Lemma Forall_dict_set {V} (P : string * V -> Prop) k v (d : pydict V) :
  P (k, v) -> Forall P d -> Forall P (dict_set k v d).
Proof.
  intros Hv. induction d as [|[k' v'] d IH]; simpl; intros Hd.
  - now constructor.
  - inversion Hd; subst. destruct (String.eqb k k'); constructor; auto.
Qed.

Lemma Forall_dict_del {V} (P : string * V -> Prop) k (d : pydict V) :
  Forall P d -> Forall P (dict_del k d).
Proof.
  induction d as [|[k' v'] d IH]; simpl; intros Hd; [constructor|].
  inversion Hd; subst. destruct (String.eqb k k'); [assumption|].
  constructor; auto.
Qed.

(** ** Strings *)

Lemma string_app_assoc (a b c : string) : ((a ++ b) ++ c = a ++ (b ++ c))%string.
Proof. induction a as [|ch a IH]; simpl; [reflexivity | now rewrite IH]. Qed.

(** ** The monad *)

Lemma bind_lift {A B} (r : pyexc + A) (f : A -> Run B) :
  bind (lift r) f = match r with inl e => ([], inl e) | inr a => f a end.
Proof. destruct r as [e|a]; simpl; [reflexivity | now destruct (f a)]. Qed.

Lemma bind_print {B} (s : string) (f : unit -> Run B) :
  bind (print s) f = (s :: stdout (f tt), outcome (f tt)).
Proof. unfold print, bind, stdout, outcome. now destruct (f tt). Qed.

Lemma bind_outcome {A B} (m : Run A) (f : A -> Run B) :
  outcome (bind m f) =
  match outcome m with inl e => inl e | inr a => outcome (f a) end.
Proof. destruct m as [out [e|a]]; simpl; [reflexivity | now destruct (f a)]. Qed.

Lemma run_eta {A} (r : Run A) : r = (stdout r, outcome r).
Proof. now destruct r. Qed.

Lemma for_each_cons {A S} (body : S -> A -> Run S) x xs acc :
  for_each body (x :: xs) acc = bind (body acc x) (for_each body xs).
Proof. reflexivity. Qed.

(** ** NumPy arrays *)

Lemma array_shape_JArr items s :
  array_shape (JArr items) = Some s -> exists s', s = length items :: s'.
Proof.
  simpl. destruct items as [|x items]; simpl.
  - intros H. inversion H. now exists [].
  - destruct (array_shape x) as [sx|]; [|discriminate].
    destruct (forallb (same_shape sx) (map array_shape items)); [|discriminate].
    intros H. inversion H. now exists sx.
Qed.

Section Facts.

Variable NPY_MAXDIMS : nat.
Variable np_float32 : json -> pyexc + float.
Variable solvePnP : ndarray -> ndarray -> ndarray -> ndarray -> pyexc + (bool * vec3 * vec3).
Variable Rodrigues : vec3 -> pyexc + (mat3 * ndarray).

Local Abbreviation np_array := (np_array NPY_MAXDIMS np_float32).
Local Abbreviation load_camera := (load_camera NPY_MAXDIMS np_float32).
Local Abbreviation structure_data := (structure_data NPY_MAXDIMS np_float32).
Local Abbreviation load_calibration_data := (load_calibration_data NPY_MAXDIMS np_float32).
Local Abbreviation calculate_extrinsics := (calculate_extrinsics solvePnP Rodrigues).
Local Abbreviation entry_of := (entry_of solvePnP Rodrigues).
Local Abbreviation camera_lines := (camera_lines solvePnP Rodrigues).
Local Abbreviation process_camera := (process_camera solvePnP Rodrigues).
Local Abbreviation process_all := (process_all solvePnP Rodrigues).
Local Abbreviation main := (main NPY_MAXDIMS np_float32 solvePnP Rodrigues).
Local Abbreviation files_after := (files_after NPY_MAXDIMS np_float32 solvePnP Rodrigues).

Lemma np_array_inv v a :
  np_array v = inr a ->
  arr_dtype a = float32 /\ array_shape v = Some (arr_shape a).
Proof.
  unfold np_array. destruct (array_shape v) as [s|]; [|discriminate].
  destruct (Nat.ltb NPY_MAXDIMS (length s)); [discriminate|].
  destruct (map_exc np_float32 (array_leaves v)); [discriminate|].
  intros H. inversion H. auto.
Qed.

(** The first dimension of a converted value is the length of the list it
    was converted from; a converted scalar has no first dimension. *)
Lemma np_array_shape0 v a n :
  np_array v = inr a -> shape0 a = inr n ->
  exists items, v = JArr items /\ length items = n.
Proof.
  intros Ha Hn. apply np_array_inv in Ha as [_ Hs].
  unfold shape0 in Hn. destruct (arr_shape a) as [|m s] eqn:Es; [discriminate|].
  inversion Hn; subst m.
  destruct v; try (simpl in Hs; discriminate).
  exists items. split; [reflexivity|].
  apply array_shape_JArr in Hs as [s' Hs']. congruence.
Qed.

Lemma point_count_spec o field v a n :
  py_getitem o field = inr v -> np_array v = inr a -> shape0 a = inr n ->
  point_count o field = Some n.
Proof.
  intros Hv Ha Hn. unfold point_count. rewrite Hv.
  destruct (np_array_shape0 _ _ _ Ha Hn) as [items [-> <-]]. reflexivity.
Qed.

(** ** The loader *)

Lemma contains_has_key intr k b v :
  py_contains k intr = inr b ->
  (b = true -> py_getitem intr k = inr v) ->
  has_key intr k = b.
Proof.
  destruct intr; simpl; try discriminate; intros Hc Hg.
  - destruct b; [|reflexivity]. specialize (Hg eq_refl). discriminate.
  - destruct b; [|reflexivity]. specialize (Hg eq_refl). discriminate.
  - congruence.
Qed.

Ltac run_step H :=
  rewrite bind_lift in H;
  match type of H with
  | context [match ?r with inl _ => _ | inr _ => _ end] =>
      let E := fresh "E" in
      destruct r eqn:E; [inversion H|]
  end.

(** One turn of the loader's loop, when it returns: the camera is either
    left out or appended, and which of the two is decided by the two
    load-time checks. *)
Lemma load_camera_returns intr sd k o log sd' :
  dict_mem k sd = false ->
  load_camera intr sd (k, o) = (log, inr sd') ->
  (passes_validation intr (k, o) = false /\ sd' = sd) \/
  (passes_validation intr (k, o) = true /\
   exists c, sd' = sd ++ [(k, c)] /\ all_float32 c).
Proof.
  intros Hfresh H. unfold load_camera, passes_validation in *. simpl fst; simpl snd.
  run_step H. destruct b; simpl negb in H; cbv iota in H.
  2:{ left. rewrite bind_print in H. simpl in H. inversion H.
      rewrite (contains_has_key _ _ false JNull E); [auto | discriminate]. }
  run_step H.
  rewrite (contains_has_key _ _ true j E (fun _ => E0)).
  do 8 run_step H.
  rewrite dict_set_fresh in H by exact Hfresh.
  do 2 run_step H.
  unfold counts_agree.
  rewrite (point_count_spec _ _ _ _ _ E5 E6 E9), (point_count_spec _ _ _ _ _ E7 E8 E10). simpl.
  destruct (Nat.eqb n3 n4); simpl negb in H; cbv iota in H.
  - right. inversion H. split; [reflexivity|]. eexists; split; [reflexivity|].
    repeat split; simpl;
      match goal with |- arr_dtype ?a = _ =>
        match goal with E : np_array _ = inr a |- _ => exact (proj1 (np_array_inv _ _ E)) end
      end.
  - left. rewrite bind_print in H. simpl in H. inversion H.
    split; [reflexivity|]. now apply dict_del_fresh.
Qed.

(** One turn of the loader's loop, whatever the mapping holds already. *)
Lemma load_camera_cases intr sd k o log sd' :
  load_camera intr sd (k, o) = (log, inr sd') ->
  sd' = sd \/
  exists c, all_float32 c /\ (sd' = dict_set k c sd \/ sd' = dict_del k (dict_set k c sd)).
Proof.
  intros H. unfold load_camera in H.
  run_step H. destruct b; simpl negb in H; cbv iota in H.
  2:{ left. rewrite bind_print in H. simpl in H. now inversion H. }
  do 11 run_step H.
  right. exists (Camera n n0 n1 n2). split.
  - repeat split; simpl;
      match goal with |- arr_dtype ?a = _ =>
        match goal with E : np_array _ = inr a |- _ => exact (proj1 (np_array_inv _ _ E)) end
      end.
  - destruct (Nat.eqb n3 n4); simpl negb in H; cbv iota in H.
    + left. now inversion H.
    + right. rewrite bind_print in H. simpl in H. now inversion H.
Qed.

Lemma load_loop_returns intr items :
  forall sd log loaded,
  NoDup (dict_keys items) ->
  (forall k, In k (dict_keys items) -> dict_mem k sd = false) ->
  for_each (load_camera intr) items sd = (log, inr loaded) ->
  exists kept,
    loaded = sd ++ kept /\
    dict_keys kept = dict_keys (filter (passes_validation intr) items) /\
    Forall (fun kc => all_float32 (snd kc)) kept.
Proof.
  induction items as [|[k o] items IH]; intros sd log loaded Hnd Hfresh H.
  - inversion H. exists []. rewrite app_nil_r. repeat split. constructor.
  - rewrite for_each_cons in H.
    destruct (load_camera intr sd (k, o)) as [l1 [e|sd1]] eqn:E1; unfold bind in H;
      [discriminate|].
    destruct (for_each (load_camera intr) items sd1) as [l2 r2] eqn:E2.
    inversion H; subst r2; clear H.
    simpl in Hnd. inversion Hnd as [|? ? Hk Hnd']; subst.
    assert (Hsd : dict_mem k sd = false) by (apply Hfresh; now left).
    destruct (load_camera_returns _ _ _ _ _ _ Hsd E1) as [[Hp ->]|[Hp [c [-> Hc]]]].
    + destruct (IH sd l2 loaded Hnd') as [kept [-> [Hk1 Hk2]]]; auto.
      { intros k' Hk'. apply Hfresh. now right. }
      exists kept. simpl filter. rewrite Hp. auto.
    + destruct (IH (sd ++ [(k, c)]) l2 loaded Hnd') as [kept [-> [Hk1 Hk2]]]; auto.
      { intros k' Hk'. apply dict_mem_false. rewrite dict_keys_app. simpl.
        intros Hin. apply in_app_or in Hin as [Hin|[<-|[]]].
        - apply (proj1 (dict_mem_false _ k' sd)); [|exact Hin].
          apply Hfresh. now right.
        - contradiction. }
      exists ((k, c) :: kept). rewrite <- app_assoc. simpl filter. rewrite Hp.
      simpl. split; [reflexivity|]. split; [now rewrite Hk1|].
      constructor; assumption.
Qed.

Lemma load_loop_float32 intr items :
  forall sd log loaded,
  Forall (fun kc => all_float32 (snd kc)) sd ->
  for_each (load_camera intr) items sd = (log, inr loaded) ->
  Forall (fun kc => all_float32 (snd kc)) loaded.
Proof.
  induction items as [|[k o] items IH]; intros sd log loaded Hsd H.
  - inversion H. subst. exact Hsd.
  - rewrite for_each_cons in H.
    destruct (load_camera intr sd (k, o)) as [l1 [e|sd1]] eqn:E1; unfold bind in H;
      [discriminate|].
    destruct (for_each (load_camera intr) items sd1) as [l2 r2] eqn:E2.
    inversion H; subst r2; clear H.
    apply (IH sd1 l2 loaded); [|exact E2].
    destruct (load_camera_cases _ _ _ _ _ _ E1) as [->|[c [Hc [->| ->]]]].
    + exact Hsd.
    + now apply Forall_dict_set.
    + apply Forall_dict_del. now apply Forall_dict_set.
Qed.

Lemma load_loop_unique intr items :
  forall sd log loaded,
  unique_keys sd = true ->
  for_each (load_camera intr) items sd = (log, inr loaded) ->
  unique_keys loaded = true.
Proof.
  induction items as [|[k o] items IH]; intros sd log loaded Hsd H.
  - inversion H. subst. exact Hsd.
  - rewrite for_each_cons in H.
    destruct (load_camera intr sd (k, o)) as [l1 [e|sd1]] eqn:E1; unfold bind in H;
      [discriminate|].
    destruct (for_each (load_camera intr) items sd1) as [l2 r2] eqn:E2.
    inversion H; subst r2; clear H.
    apply (IH sd1 l2 loaded); [|exact E2].
    destruct (load_camera_cases _ _ _ _ _ _ E1) as [->|[c [Hc [->| ->]]]].
    + exact Hsd.
    + now apply unique_keys_dict_set.
    + apply unique_keys_dict_del. now apply unique_keys_dict_set.
Qed.

(** When the loader returns, it returns the cameras of the observations
    document that pass both checks, in the order of that document, each with
    four [float32] arrays. *)
Lemma structure_data_returns intr obs log loaded :
  unique_keys (observed_cameras obs) = true ->
  structure_data intr obs = (log, inr loaded) ->
  dict_keys loaded = dict_keys (filter (passes_validation intr) (observed_cameras obs)) /\
  Forall (fun kc => all_float32 (snd kc)) loaded.
Proof.
  unfold structure_data, observed_cameras. intros Hu H.
  rewrite bind_lift in H.
  destruct (py_get obs "cameras" (JObj [])) as [e|cams]; [discriminate|].
  rewrite bind_lift in H.
  destruct cams; simpl in H; try discriminate.
  apply unique_keys_NoDup in Hu.
  destruct (load_loop_returns _ _ [] _ _ Hu (fun _ _ => eq_refl) H) as [kept [-> [Hk Hf]]].
  simpl. auto.
Qed.

Lemma load_calibration_data_parsed fs ip op intr obs :
  json_load fs ip = inr intr -> json_load fs op = inr obs ->
  load_calibration_data fs ip op =
  (("Loading data from " ++ ip ++ " and " ++ op ++ "...")%string
     :: stdout (structure_data intr obs),
   outcome (structure_data intr obs)).
Proof.
  intros Hi Ho. unfold load_calibration_data.
  rewrite bind_print, Hi, Ho. reflexivity.
Qed.

Lemma loader_returns fs ip op intr obs loaded :
  json_load fs ip = inr intr ->
  json_load fs op = inr obs ->
  unique_keys (observed_cameras obs) = true ->
  outcome (load_calibration_data fs ip op) = inr loaded ->
  dict_keys loaded = dict_keys (filter (passes_validation intr) (observed_cameras obs)) /\
  Forall (fun kc => all_float32 (snd kc)) loaded /\
  unique_keys loaded = true.
Proof.
  intros Hi Ho Hu Hl.
  rewrite (load_calibration_data_parsed _ _ _ _ _ Hi Ho) in Hl. simpl in Hl.
  destruct (structure_data_returns intr obs (stdout (structure_data intr obs)) loaded Hu)
    as [Hk Hf].
  { rewrite <- Hl. apply run_eta. }
  repeat split; auto.
  apply unique_keys_NoDup. rewrite Hk. apply NoDup_keys_filter.
  now apply unique_keys_NoDup.
Qed.

Lemma loader_float32 fs ip op loaded :
  outcome (load_calibration_data fs ip op) = inr loaded ->
  Forall (fun kc => all_float32 (snd kc)) loaded.
Proof.
  unfold load_calibration_data. rewrite bind_print. simpl outcome.
  destruct (json_load fs ip) as [[name|e|e]|intr].
  - intros H. inversion H. constructor.
  - intros H. inversion H. constructor.
  - discriminate.
  - destruct (json_load fs op) as [[name|e|e]|obs].
    + intros H. inversion H. constructor.
    + intros H. inversion H. constructor.
    + discriminate.
    + unfold structure_data. rewrite bind_lift.
      destruct (py_get obs "cameras" (JObj [])) as [e|cams]; [discriminate|].
      rewrite bind_lift.
      destruct (py_items cams) as [e|items]; [discriminate|].
      intros H. eapply load_loop_float32; [constructor|].
      rewrite <- H. apply run_eta.
Qed.

(** What the loader returns is a dictionary: each camera id is there once. *)
Lemma loader_unique_keys fs ip op loaded :
  outcome (load_calibration_data fs ip op) = inr loaded ->
  unique_keys loaded = true.
Proof.
  unfold load_calibration_data. rewrite bind_print. simpl outcome.
  destruct (json_load fs ip) as [[name|e|e]|intr].
  - intros H. now inversion H.
  - intros H. now inversion H.
  - discriminate.
  - destruct (json_load fs op) as [[name|e|e]|obs].
    + intros H. now inversion H.
    + intros H. now inversion H.
    + discriminate.
    + unfold structure_data. rewrite bind_lift.
      destruct (py_get obs "cameras" (JObj [])) as [e|cams]; [discriminate|].
      rewrite bind_lift.
      destruct (py_items cams) as [e|items]; [discriminate|].
      intros H. apply (load_loop_unique intr items [] (stdout (for_each (load_camera intr) items [])) loaded eq_refl).
      rewrite <- H. apply run_eta.
Qed.

Lemma loader_caught_failure fs ip op :
  caught_failure fs ip = true \/ (parses fs ip = true /\ caught_failure fs op = true) ->
  exists msg,
    load_calibration_data fs ip op =
    ([("Loading data from " ++ ip ++ " and " ++ op ++ "...")%string;
      ("ERROR: " ++ msg ++ " Aborting.")%string], inr []).
Proof.
  unfold caught_failure, parses, load_calibration_data. rewrite bind_print. intros H.
  destruct (json_load fs ip) as [[name|e|e]|intr].
  - exists ("Missing file " ++ name ++ ".")%string. simpl.
    now rewrite string_app_assoc.
  - exists ("Invalid JSON format in a file. " ++ e ++ ".")%string. simpl.
    now rewrite string_app_assoc.
  - destruct H as [H|[H _]]; discriminate.
  - destruct H as [H|[_ H]]; [discriminate|].
    destruct (json_load fs op) as [[name|e|e]|obs]; try discriminate.
    + exists ("Missing file " ++ name ++ ".")%string. simpl.
      now rewrite string_app_assoc.
    + exists ("Invalid JSON format in a file. " ++ e ++ ".")%string. simpl.
      now rewrite string_app_assoc.
Qed.

(** A key is kept by the filter exactly when its own item passes. *)
Lemma kept_key_iff intr (cams : pydict json) k :
  unique_keys cams = true ->
  In k (dict_keys (filter (passes_validation intr) cams)) <->
  has_key intr k = true /\
  exists o, dict_get k cams = Some o /\ counts_agree o = true.
Proof.
  intros Hu. unfold dict_keys. rewrite in_map_iff. split.
  - intros [[k' o] [Hk Hin]]. simpl in Hk. subst k'.
    apply filter_In in Hin as [Hin Hp].
    unfold passes_validation in Hp. simpl in Hp.
    apply andb_true_iff in Hp as [H1 H2].
    split; [exact H1|]. exists o. split; [|exact H2].
    now apply In_dict_get.
  - intros [H1 [o [Hg H2]]]. exists (k, o). split; [reflexivity|].
    apply filter_In. split; [now apply dict_get_In|].
    unfold passes_validation. simpl. now rewrite H1, H2.
Qed.

Lemma lacks_getitem v field : lacks v field = true -> exists e, py_getitem v field = inl e.
Proof.
  unfold lacks, has_key. destruct v; simpl; eauto.
  unfold dict_mem. destruct (dict_get field fields); [discriminate | eauto].
Qed.

Ltac raise_step :=
  rewrite bind_lift;
  match goal with
  | |- context [match ?r with inl _ => _ | inr _ => _ end] =>
      let E := fresh "E" in
      destruct r eqn:E; [eexists; reflexivity|]
  end.

(** The turn of the loop for a camera with a missing field raises, whatever
    has been loaded before. *)
Lemma load_camera_raises intr sd k o int_data :
  py_getitem intr k = inr int_data ->
  lacks int_data "K" = true \/ lacks int_data "distortion" = true \/
  lacks o "points_3d" = true \/ lacks o "points_2d" = true ->
  raises (load_camera intr sd (k, o)).
Proof.
  intros Hg Hlack. unfold raises, load_camera.
  destruct intr; try discriminate. simpl in Hg.
  rewrite bind_lift. simpl py_contains. unfold dict_mem.
  destruct (dict_get k fields) as [x|] eqn:Ek; [|discriminate].
  inversion Hg; subst x. simpl negb. cbv iota.
  rewrite bind_lift. simpl py_getitem. rewrite Ek.
  do 7 raise_step.
  destruct Hlack as [H|[H|[H|H]]]; apply lacks_getitem in H as [e He]; congruence.
Qed.

Lemma for_each_raises {A S} (body : S -> A -> Run S) item items :
  In item items ->
  (forall acc, raises (body acc item)) ->
  forall acc, raises (for_each body items acc).
Proof.
  unfold raises. induction items as [|x items IH]; intros Hin Hr acc; [destruct Hin|].
  rewrite for_each_cons, bind_outcome.
  destruct Hin as [->|Hin].
  - destruct (Hr acc) as [e He]. rewrite He. now exists e.
  - destruct (outcome (body acc x)) as [e|acc']; [now exists e | now apply IH].
Qed.

(** ** The orchestrator *)

Lemma process_camera_eq acc item :
  process_camera acc item =
  (camera_lines item, inr (dict_set (fst item) (entry_of (snd item)) acc)).
Proof.
  destruct item as [k c].
  unfold process_camera, camera_lines, entry_of.
  rewrite bind_print. simpl fst; simpl snd.
  destruct (calculate_extrinsics c); rewrite bind_print; reflexivity.
Qed.

(** The loop over the loaded cameras never raises. *)
Lemma process_loop_returns l :
  forall acc, exists cameras,
    for_each process_camera l acc = (flat_map camera_lines l, inr cameras).
Proof.
  induction l as [|item l IH]; intros acc.
  - now exists acc.
  - rewrite for_each_cons, process_camera_eq. cbn [flat_map].
    destruct (IH (dict_set (fst item) (entry_of (snd item)) acc)) as [cs Hcs].
    exists cs. unfold bind. rewrite Hcs. reflexivity.
Qed.

Lemma process_loop_entries l :
  forall acc,
  NoDup (dict_keys l) ->
  (forall k, In k (dict_keys l) -> dict_mem k acc = false) ->
  for_each process_camera l acc =
  (flat_map camera_lines l,
   inr (acc ++ map (fun kc => (fst kc, entry_of (snd kc))) l)).
Proof.
  induction l as [|[k c] l IH]; intros acc Hnd Hfresh.
  - simpl. now rewrite app_nil_r.
  - rewrite for_each_cons, process_camera_eq. cbn [flat_map map fst snd].
    inversion Hnd as [|? ? Hk Hnd']; subst.
    rewrite dict_set_fresh by (apply Hfresh; now left).
    unfold bind. rewrite IH; auto.
    + now rewrite <- app_assoc.
    + intros k' Hk'. apply dict_mem_false. rewrite dict_keys_app. simpl.
      intros Hin. apply in_app_or in Hin as [Hin|[<-|[]]].
      * apply (proj1 (dict_mem_false _ k' acc)); [|exact Hin].
        apply Hfresh. now right.
      * contradiction.
Qed.

Lemma process_all_entries loaded :
  unique_keys loaded = true ->
  process_all loaded =
  (flat_map camera_lines loaded,
   inr (map (fun kc => (fst kc, entry_of (snd kc))) loaded)).
Proof.
  intros Hu. apply unique_keys_NoDup in Hu.
  unfold process_all. now rewrite process_loop_entries.
Qed.

Lemma process_all_lookup loaded :
  unique_keys loaded = true ->
  exists cameras,
    process_all loaded = (flat_map camera_lines loaded, inr cameras) /\
    dict_keys cameras = dict_keys loaded /\
    forall k, dict_get k cameras = option_map entry_of (dict_get k loaded).
Proof.
  intros Hu. exists (map (fun kc => (fst kc, entry_of (snd kc))) loaded).
  split; [now apply process_all_entries|]. split.
  - apply dict_keys_map.
  - intros k. apply dict_get_map.
Qed.

Lemma document_cameras_results cameras :
  document_cameras (json_of_results cameras) =
  map (fun kv => (fst kv, json_of_entry (snd kv))) cameras.
  Proof. reflexivity. Qed.

(** What the run does once the loader has returned. *)
Lemma main_after_load fs loaded :
  outcome (load_calibration_data fs INTRINSICS_FILE OBSERVATIONS_FILE) = inr loaded ->
  unique_keys loaded = true ->
  main fs =
  (stdout (load_calibration_data fs INTRINSICS_FILE OBSERVATIONS_FILE) ++
   match loaded with
   | [] => ["No valid camera data loaded. Exiting."]
   | _ :: _ =>
       flat_map camera_lines loaded ++
       [(newline ++ "--- Processing Complete ---")%string;
        ("Results saved to: " ++ OUTPUT_FILE)%string]
   end,
   inr match loaded with
       | [] => None
       | _ :: _ =>
           Some (json_of_results (map (fun kc => (fst kc, entry_of (snd kc))) loaded))
       end).
Proof.
  intros Hl Hu. unfold main.
  destruct (load_calibration_data fs INTRINSICS_FILE OBSERVATIONS_FILE) as [out r].
  simpl in Hl. subst r. unfold bind at 1.
  destruct loaded as [|kc loaded].
  - reflexivity.
  - rewrite process_all_entries by exact Hu.
    unfold bind, print, ret. simpl. reflexivity.
Qed.

(** An exception of the loader leaves [main] as it is: nothing catches it. *)
Lemma main_loader_raises fs e :
  outcome (load_calibration_data fs INTRINSICS_FILE OBSERVATIONS_FILE) = inl e ->
  main fs = (stdout (load_calibration_data fs INTRINSICS_FILE OBSERVATIONS_FILE), inl e).
Proof.
  intros Hl. unfold main.
  destruct (load_calibration_data fs INTRINSICS_FILE OBSERVATIONS_FILE) as [out r].
  simpl in Hl. subst r. reflexivity.
Qed.

Lemma main_empty fs :
  outcome (load_calibration_data fs INTRINSICS_FILE OBSERVATIONS_FILE) = inr [] ->
  outcome (main fs) = inr None /\ files_after fs = fs.
Proof.
  intros H. assert (Hm : outcome (main fs) = inr None).
  { now rewrite (main_after_load _ _ H eq_refl). }
  split; [exact Hm|]. unfold files_after. now rewrite Hm.
Qed.

Lemma main_writes fs loaded :
  outcome (load_calibration_data fs INTRINSICS_FILE OBSERVATIONS_FILE) = inr loaded ->
  loaded <> [] ->
  exists cameras, outcome (main fs) = inr (Some (json_of_results cameras)).
Proof.
  intros Hl Hne. unfold main.
  destruct (load_calibration_data fs INTRINSICS_FILE OBSERVATIONS_FILE) as [out r].
  simpl in Hl. subst r. unfold bind at 1.
  destruct loaded as [|kc loaded]; [congruence|].
  destruct (process_loop_returns (kc :: loaded) []) as [cameras Hc].
  exists cameras. unfold process_all. rewrite Hc. reflexivity.
Qed.

Lemma written_cameras_main fs loaded :
  outcome (load_calibration_data fs INTRINSICS_FILE OBSERVATIONS_FILE) = inr loaded ->
  unique_keys loaded = true ->
  written_cameras (main fs) =
  map (fun kc => (fst kc, json_of_entry (entry_of (snd kc)))) loaded.
Proof.
  intros Hl Hu. unfold written_cameras. rewrite (main_after_load _ _ Hl Hu).
  simpl outcome. destruct loaded as [|kc loaded]; [reflexivity|].
  rewrite document_cameras_results, map_map. reflexivity.
Qed.

(** The entries the loop records for a loaded mapping, and the report. *)
Lemma recorded_entries fs loaded :
  outcome (load_calibration_data fs INTRINSICS_FILE OBSERVATIONS_FILE) = inr loaded ->
  exists cameras,
    outcome (process_all loaded) = inr cameras /\
    dict_keys cameras = dict_keys loaded /\
    (forall k, dict_get k cameras = option_map entry_of (dict_get k loaded)) /\
    (loaded <> [] -> outcome (main fs) = inr (Some (json_of_results cameras))).
Proof.
  intros Hload. pose proof (loader_unique_keys _ _ _ _ Hload) as Hu.
  destruct (process_all_lookup loaded Hu) as [cameras [Hp [Hk Hl]]].
  exists cameras. rewrite Hp. repeat split; auto.
  intros Hne. rewrite (main_after_load _ _ Hload Hu). simpl.
  destruct loaded as [|kc loaded]; [congruence|].
  rewrite process_all_entries in Hp by exact Hu. inversion Hp. reflexivity.
Qed.

(** An observations document that is no object has no [get]. *)
Lemma observations_not_an_object fs intr obs :
  json_load fs INTRINSICS_FILE = inr intr ->
  json_load fs OBSERVATIONS_FILE = inr obs ->
  (forall fields, obs <> JObj fields) ->
  outcome (load_calibration_data fs INTRINSICS_FILE OBSERVATIONS_FILE)
    = inl (no_attribute obs "get").
Proof.
  intros Hi Ho Hobj. rewrite (load_calibration_data_parsed _ _ _ _ _ Hi Ho).
  simpl outcome. unfold structure_data.
  destruct obs; try reflexivity. now destruct (Hobj fields).
Qed.

(** ** The pose of one camera *)

Lemma calculate_extrinsics_inv cam r :
  calculate_extrinsics cam = inr r ->
  exists rvec tvec R jac,
    solvePnP (cam_points_3d cam) (cam_points_2d cam) (cam_K cam) (cam_dist cam)
      = inr (true, rvec, tvec) /\
    Rodrigues rvec = inr (R, jac) /\
    r = Extrinsics (mat3_tolist R) (vec3_tolist tvec)
                   (tolist2 (homogeneous R tvec)) (vec3_tolist rvec).
Proof.
  unfold calculate_extrinsics.
  destruct (solvePnP _ _ _ _) as [e|[[success rvec] tvec]]; [discriminate|].
  destruct success; simpl; [|discriminate].
  destruct (Rodrigues rvec) as [e|[R jac]] eqn:ER; [discriminate|].
  intros H. inversion H. now exists rvec, tvec, R, jac.
Qed.

Lemma homogeneous_tolist R t :
  tolist2 (homogeneous R t) =
  [vec3_tolist (row0 R) ++ [v0 t];
   vec3_tolist (row1 R) ++ [v1 t];
   vec3_tolist (row2 R) ++ [v2 t];
   [0; 0; 0; 1]%float].
  Proof. destruct R as [[a b c] [d e f] [g h i]], t as [x y z]. reflexivity. Qed.

Lemma homogeneous_dtype R t : arr_dtype (homogeneous R t) = float64.
  Proof. reflexivity. Qed.

Lemma only_floats_rows rows : only_floats (json_rows rows) = true.
Proof.
  unfold json_rows. simpl. rewrite forallb_forall. intros v Hv.
  apply in_map_iff in Hv as [row [<- _]]. unfold json_floats. simpl.
  rewrite forallb_forall. intros x Hx. now apply in_map_iff in Hx as [y [<- _]].
Qed.

Lemma only_floats_list l : only_floats (json_floats l) = true.
Proof.
  unfold json_floats. simpl. rewrite forallb_forall. intros x Hx.
  now apply in_map_iff in Hx as [y [<- _]].
Qed.

(** ** The properties of the specification *)

(** C1 (as amended): for every pair of input documents on which the loader
    returns without raising, a camera id is a key of the [cameras] mapping of
    the report exactly when it is a key of the intrinsics document and a key
    of the observations document's [cameras] object whose two point lists
    have equal lengths.  A camera the loader leaves out is no key of the
    report, not even with an error entry; a loaded camera whose solve raises
    is a key of the report, with an error entry.  (The [cameras] object is a
    dictionary, so its keys are distinct.) *)
Theorem output_cameras_iff_validated fs intr obs loaded :
  json_load fs INTRINSICS_FILE = inr intr ->
  json_load fs OBSERVATIONS_FILE = inr obs ->
  unique_keys (observed_cameras obs) = true ->
  outcome (load_calibration_data fs INTRINSICS_FILE OBSERVATIONS_FILE) = inr loaded ->
  (forall k,
     dict_mem k (written_cameras (main fs)) = true <->
     has_key intr k = true /\
     exists o, dict_get k (observed_cameras obs) = Some o /\ counts_agree o = true) /\
  (forall k o,
     dict_get k (observed_cameras obs) = Some o ->
     has_key intr k = false \/ counts_agree o = false ->
     dict_get k (written_cameras (main fs)) = None) /\
  (forall k cam e,
     dict_get k loaded = Some cam ->
     calculate_extrinsics cam = inl e ->
     dict_get k (written_cameras (main fs)) = Some (JObj [("error", JStr (exc_str e))])).
Proof.
  intros Hi Ho Hu Hl.
  destruct (loader_returns _ _ _ _ _ _ Hi Ho Hu Hl) as [Hk [_ Hul]].
  rewrite (written_cameras_main _ _ Hl Hul).
  assert (Hiff : forall k,
    dict_mem k (map (fun kc => (fst kc, json_of_entry (entry_of (snd kc)))) loaded) = true <->
    has_key intr k = true /\
    exists o, dict_get k (observed_cameras obs) = Some o /\ counts_agree o = true).
  { intros k. rewrite dict_mem_In, (dict_keys_map (fun c => json_of_entry (entry_of c))), Hk.
    now apply kept_key_iff. }
  split; [exact Hiff|]. split.
  - intros k o Hg Hbad.
    destruct (dict_get k (map _ loaded)) eqn:E; [|reflexivity].
    assert (Hm : dict_mem k (map (fun kc => (fst kc, json_of_entry (entry_of (snd kc)))) loaded) = true)
      by (unfold dict_mem; now rewrite E).
    apply Hiff in Hm as [H1 [o' [Hg' H2]]].
    rewrite Hg in Hg'. inversion Hg'; subst o'.
    destruct Hbad; congruence.
  - intros k cam e Hg He.
    rewrite (dict_get_map (fun c => json_of_entry (entry_of c))), Hg. simpl.
    unfold entry_of. rewrite He. reflexivity.
Qed.

(** C2: when the solve of one camera of the loaded mapping raises, the loop
    over the mapping still returns; its result has the keys of the mapping,
    holds the text of the exception as error entry under the id of that
    camera, and holds under every other id what that camera's own solve
    gives.  The run then writes this result. *)
Theorem solver_exception_is_recorded fs loaded k cam e :
  outcome (load_calibration_data fs INTRINSICS_FILE OBSERVATIONS_FILE) = inr loaded ->
  dict_get k loaded = Some cam ->
  calculate_extrinsics cam = inl e ->
  exists cameras,
    outcome (process_all loaded) = inr cameras /\
    dict_keys cameras = dict_keys loaded /\
    dict_get k cameras = Some (ErrorEntry (exc_str e)) /\
    (forall k', k' <> k -> dict_get k' cameras = option_map entry_of (dict_get k' loaded)) /\
    outcome (main fs) = inr (Some (json_of_results cameras)).
Proof.
  intros Hload Hg He.
  destruct (recorded_entries _ _ Hload) as [cameras [Hp [Hk [Hl Hm]]]].
  exists cameras. repeat split; auto.
  - rewrite Hl, Hg. simpl. unfold entry_of. now rewrite He.
  - apply Hm. intros ->. discriminate.
Qed.

(** C3 (as amended): when [cv2.solvePnP] reports failure, the pose solver
    raises [RuntimeError] with the text "cv2.solvePnP failed to converge.";
    the loop records that text under the id of the camera, the entries of
    the other cameras are what their own solves give, and the run writes the
    report. *)
Theorem not_converged_raises_RuntimeError cam rvec tvec :
  solvePnP (cam_points_3d cam) (cam_points_2d cam) (cam_K cam) (cam_dist cam)
    = inr (false, rvec, tvec) ->
  calculate_extrinsics cam = inl (Exc RuntimeError "cv2.solvePnP failed to converge.") /\
  forall fs loaded k,
    outcome (load_calibration_data fs INTRINSICS_FILE OBSERVATIONS_FILE) = inr loaded ->
    dict_get k loaded = Some cam ->
    exists cameras,
      outcome (process_all loaded) = inr cameras /\
      dict_get k cameras = Some (ErrorEntry "cv2.solvePnP failed to converge.") /\
      (forall k', k' <> k -> dict_get k' cameras = option_map entry_of (dict_get k' loaded)) /\
      outcome (main fs) = inr (Some (json_of_results cameras)).
Proof.
  intros Hs.
  assert (Hc : calculate_extrinsics cam = inl (Exc RuntimeError "cv2.solvePnP failed to converge.")).
  { unfold calculate_extrinsics. rewrite Hs. reflexivity. }
  split; [exact Hc|].
  intros fs loaded k Hload Hg.
  destruct (recorded_entries _ _ Hload) as [cameras [Hp [_ [Hl Hm]]]].
  exists cameras. repeat split; auto.
  - rewrite Hl, Hg. simpl. unfold entry_of. now rewrite Hc.
  - apply Hm. intros ->. discriminate.
Qed.

(** C4: the matrix a successful solve returns has four rows of four entries,
    its last row is [0, 0, 0, 1], its upper left 3x3 block is the returned
    rotation matrix and the first three entries of its last column are the
    returned translation vector. *)
Theorem homogeneous_matrix_layout cam r :
  calculate_extrinsics cam = inr r ->
  length (T_homogeneous_matrix_4x4 r) = 4 /\
  Forall (fun row => length row = 4) (T_homogeneous_matrix_4x4 r) /\
  nth 3 (T_homogeneous_matrix_4x4 r) [] = [0; 0; 0; 1]%float /\
  map (firstn 3) (firstn 3 (T_homogeneous_matrix_4x4 r)) = rotation_matrix_R r /\
  map (fun row => nth 3 row 0%float) (firstn 3 (T_homogeneous_matrix_4x4 r))
    = translation_vector_t r.
Proof.
  intros H. apply calculate_extrinsics_inv in H as [rvec [tvec [R [jac [_ [_ ->]]]]]].
  simpl. rewrite homogeneous_tolist.
  destruct R as [[a b c] [d e f] [g h i]], tvec as [x y z]. simpl.
  repeat split. repeat constructor.
Qed.

(** C5 (as amended): when the first input file that cannot be loaded fails
    with an exception the loader catches (the intrinsics file is absent or
    its text is no JSON, or it parses and the observations file is absent
    or its text is no JSON), the loader prints an error line and returns
    the empty mapping, and the run returns without a report: the files are
    as before.  When the loader returns a mapping that is not empty, the run
    writes the report into the output file. *)
Theorem report_written_iff_cameras_loaded fs :
  (caught_failure fs INTRINSICS_FILE = true \/
   (parses fs INTRINSICS_FILE = true /\ caught_failure fs OBSERVATIONS_FILE = true) ->
   (exists msg,
      load_calibration_data fs INTRINSICS_FILE OBSERVATIONS_FILE =
      (["Loading data from intrinsics.json and observations.json...";
        ("ERROR: " ++ msg ++ " Aborting.")%string], inr [])) /\
   outcome (main fs) = inr None /\
   files_after fs = fs) /\
  (forall loaded,
     outcome (load_calibration_data fs INTRINSICS_FILE OBSERVATIONS_FILE) = inr loaded ->
     loaded <> [] ->
     exists doc,
       outcome (main fs) = inr (Some doc) /\
       dict_get OUTPUT_FILE (files_after fs) = Some (Document doc)).
Proof.
  split.
  - intros H. destruct (loader_caught_failure _ _ _ H) as [msg Hmsg].
    split; [exists msg; exact Hmsg|].
    apply main_empty. now rewrite Hmsg.
  - intros loaded Hl Hne. destruct (main_writes _ _ Hl Hne) as [cameras Hc].
    exists (json_of_results cameras). split; [exact Hc|].
    unfold files_after. rewrite Hc. apply dict_get_set_same.
Qed.

(** C6: the four arrays of every camera the loader returns have dtype
    [float32], and they are the arrays [cv2.solvePnP] is called on; the
    matrix assembled for that camera has dtype [float64], and the four lists
    of a returned pose hold doubles only. *)
Theorem float32_in_float64_out fs ip op loaded k cam :
  outcome (load_calibration_data fs ip op) = inr loaded ->
  dict_get k loaded = Some cam ->
  all_float32 cam /\
  forall r, calculate_extrinsics cam = inr r ->
    (exists rvec R tvec,
       solvePnP (cam_points_3d cam) (cam_points_2d cam) (cam_K cam) (cam_dist cam)
         = inr (true, rvec, tvec) /\
       T_homogeneous_matrix_4x4 r = tolist2 (homogeneous R tvec) /\
       arr_dtype (homogeneous R tvec) = float64) /\
    fields_only_floats (json_of_entry (Pose r)) = true.
Proof.
  intros Hl Hg. split.
  - apply loader_float32 in Hl. rewrite Forall_forall in Hl.
    apply (Hl (k, cam)). now apply dict_get_In.
  - intros r Hr. split.
    + apply calculate_extrinsics_inv in Hr as [rvec [tvec [R [jac [Hs [_ ->]]]]]].
      exists rvec, R, tvec. split; [exact Hs|]. split; [reflexivity | apply homogeneous_dtype].
    + unfold fields_only_floats, json_of_entry. cbn [forallb snd].
      now rewrite !only_floats_rows, !only_floats_list.
Qed.

(** C7: the loader returns the validated cameras in the key order of the
    observations document's [cameras] object; the orchestrator goes through
    them in that order, printing the lines of each camera in turn, and the
    keys of the report follow the same order.  When the loader raises, no
    camera is processed. *)
Theorem cameras_solved_in_document_order fs intr obs :
  json_load fs INTRINSICS_FILE = inr intr ->
  json_load fs OBSERVATIONS_FILE = inr obs ->
  unique_keys (observed_cameras obs) = true ->
  match outcome (load_calibration_data fs INTRINSICS_FILE OBSERVATIONS_FILE) with
  | inr loaded =>
      dict_keys loaded =
        dict_keys (filter (passes_validation intr) (observed_cameras obs)) /\
      (exists cameras,
         process_all loaded = (flat_map camera_lines loaded, inr cameras) /\
         dict_keys cameras = dict_keys loaded) /\
      stdout (main fs) =
        stdout (load_calibration_data fs INTRINSICS_FILE OBSERVATIONS_FILE) ++
        match loaded with
        | [] => ["No valid camera data loaded. Exiting."]
        | _ :: _ =>
            flat_map camera_lines loaded ++
            [(newline ++ "--- Processing Complete ---")%string;
             ("Results saved to: " ++ OUTPUT_FILE)%string]
        end /\
      dict_keys (written_cameras (main fs)) = dict_keys loaded
  | inl e =>
      main fs = (stdout (load_calibration_data fs INTRINSICS_FILE OBSERVATIONS_FILE), inl e)
  end.
Proof.
  intros Hi Ho Hu.
  destruct (outcome (load_calibration_data fs INTRINSICS_FILE OBSERVATIONS_FILE))
    as [e|loaded] eqn:Hl.
  - now apply main_loader_raises.
  - destruct (loader_returns _ _ _ _ _ _ Hi Ho Hu Hl) as [Hk [_ Hul]].
    split; [exact Hk|]. split; [|split].
    + destruct (process_all_lookup loaded Hul) as [cameras [Hp [Hkeys _]]].
      now exists cameras.
    + now rewrite (main_after_load _ _ Hl Hul).
    + rewrite (written_cameras_main _ _ Hl Hul).
      apply (dict_keys_map (fun c => json_of_entry (entry_of c))).
Qed.

(** C8 (as amended): an observations document that parses as a JSON object
    without [cameras] key makes the loader return the empty mapping without
    raising, and the run returns without a report. *)
Theorem no_cameras_key_loads_nothing fs intr fields :
  json_load fs INTRINSICS_FILE = inr intr ->
  json_load fs OBSERVATIONS_FILE = inr (JObj fields) ->
  dict_mem "cameras" fields = false ->
  load_calibration_data fs INTRINSICS_FILE OBSERVATIONS_FILE =
    (["Loading data from intrinsics.json and observations.json..."], inr []) /\
  outcome (main fs) = inr None /\
  files_after fs = fs.
Proof.
  intros Hi Ho Hc.
  assert (Hl : load_calibration_data fs INTRINSICS_FILE OBSERVATIONS_FILE =
    (["Loading data from intrinsics.json and observations.json..."], inr [])).
  { rewrite (load_calibration_data_parsed _ _ _ _ _ Hi Ho).
    unfold structure_data, py_get. unfold dict_mem in Hc.
    destruct (dict_get "cameras" fields); [discriminate|]. reflexivity. }
  split; [exact Hl|]. apply main_empty. now rewrite Hl.
Qed.

(** C9: when a camera id is a key of both documents and its intrinsics entry
    lacks [K] or [distortion], or its observation entry lacks [points_3d] or
    [points_2d], the loader raises; nothing catches the exception, so the run
    ends with it and writes no report.  The loop over loaded cameras, in
    contrast, returns for every mapping. *)
Theorem loader_raises_on_missing_field fs intr obs k int_data o :
  json_load fs INTRINSICS_FILE = inr intr ->
  json_load fs OBSERVATIONS_FILE = inr obs ->
  py_getitem intr k = inr int_data ->
  dict_get k (observed_cameras obs) = Some o ->
  lacks int_data "K" = true \/ lacks int_data "distortion" = true \/
  lacks o "points_3d" = true \/ lacks o "points_2d" = true ->
  (exists e,
     outcome (load_calibration_data fs INTRINSICS_FILE OBSERVATIONS_FILE) = inl e /\
     outcome (main fs) = inl e /\
     files_after fs = fs) /\
  (forall loaded, exists cameras, outcome (process_all loaded) = inr cameras).
Proof.
  intros Hi Ho Hg Hobs Hlack. split.
  - assert (Hr : raises (load_calibration_data fs INTRINSICS_FILE OBSERVATIONS_FILE)).
    { rewrite (load_calibration_data_parsed _ _ _ _ _ Hi Ho). unfold raises. simpl outcome.
      unfold structure_data. unfold observed_cameras in Hobs.
      rewrite bind_lift.
      destruct (py_get obs "cameras" (JObj [])) as [e|cams]; [discriminate|].
      destruct cams; try discriminate.
      rewrite bind_lift. simpl py_items.
      apply (for_each_raises _ (k, o)).
      - now apply dict_get_In.
      - intros acc. now apply (load_camera_raises intr acc k o int_data). }
    destruct Hr as [e He]. exists e. split; [exact He|].
    assert (Hm : outcome (main fs) = inl e) by now rewrite (main_loader_raises _ _ He).
    split; [exact Hm|]. unfold files_after. now rewrite Hm.
  - intros loaded. destruct (process_loop_returns loaded []) as [cameras Hc].
    exists cameras. unfold process_all. now rewrite Hc.
Qed.

(** C10: the four lists of a successful solve come from one rotation vector
    and one translation vector: [R_Rodrigues_vector] lists the vector
    [cv2.solvePnP] returned, [rotation_matrix_R] lists what [cv2.Rodrigues]
    made of that vector, [translation_vector_t] lists the translation
    [cv2.solvePnP] returned, and the homogeneous matrix is assembled from
    that matrix and that translation. *)
Theorem representations_share_vectors cam r :
  calculate_extrinsics cam = inr r ->
  exists rvec tvec R jac,
    solvePnP (cam_points_3d cam) (cam_points_2d cam) (cam_K cam) (cam_dist cam)
      = inr (true, rvec, tvec) /\
    Rodrigues rvec = inr (R, jac) /\
    R_Rodrigues_vector r = vec3_tolist rvec /\
    rotation_matrix_R r = mat3_tolist R /\
    translation_vector_t r = vec3_tolist tvec /\
    T_homogeneous_matrix_4x4 r = tolist2 (homogeneous R tvec) /\
    map (firstn 3) (firstn 3 (T_homogeneous_matrix_4x4 r)) = mat3_tolist R /\
    map (fun row => nth 3 row 0%float) (firstn 3 (T_homogeneous_matrix_4x4 r))
      = vec3_tolist tvec.
Proof.
  intros H. apply calculate_extrinsics_inv in H as [rvec [tvec [R [jac [Hs [HR ->]]]]]].
  exists rvec, tvec, R, jac. simpl. rewrite homogeneous_tolist.
  destruct R as [[a b c] [d e f] [g h i]], tvec as [x y z]. simpl.
  repeat split; assumption.
Qed.

End Facts.

(** * Further properties of the loader and of the run *)

Lemma dict_del_set {V} k (v : V) (d : pydict V) :
  dict_del k (dict_set k v d) = dict_del k d.
Proof.
  induction d as [|[k' v'] d IH]; simpl.
  - now rewrite String.eqb_refl.
  - destruct (String.eqb k k') eqn:E; simpl.
    + now rewrite String.eqb_refl.
    + now rewrite E, IH.
Qed.

Lemma dict_set_set {V} k (v v' : V) (d : pydict V) :
  dict_set k v (dict_set k v' d) = dict_set k v d.
Proof.
  induction d as [|[k0 v0] d IH]; simpl.
  - now rewrite String.eqb_refl.
  - destruct (String.eqb k k0) eqn:E; simpl.
    + now rewrite String.eqb_refl.
    + now rewrite E, IH.
Qed.

Section Further.

Variable NPY_MAXDIMS : nat.
Variable np_float32 : json -> pyexc + float.
Variable solvePnP : ndarray -> ndarray -> ndarray -> ndarray -> pyexc + (bool * vec3 * vec3).
Variable Rodrigues : vec3 -> pyexc + (mat3 * ndarray).

Local Abbreviation np_array := (np_array NPY_MAXDIMS np_float32).
Local Abbreviation build_camera := (build_camera NPY_MAXDIMS np_float32).
Local Abbreviation convertible := (convertible NPY_MAXDIMS np_float32).
Local Abbreviation load_camera := (load_camera NPY_MAXDIMS np_float32).
Local Abbreviation structure_data := (structure_data NPY_MAXDIMS np_float32).
Local Abbreviation load_calibration_data := (load_calibration_data NPY_MAXDIMS np_float32).
Local Abbreviation calculate_extrinsics := (calculate_extrinsics solvePnP Rodrigues).
Local Abbreviation entry_of := (entry_of solvePnP Rodrigues).
Local Abbreviation process_all := (process_all solvePnP Rodrigues).
Local Abbreviation main := (main NPY_MAXDIMS np_float32 solvePnP Rodrigues).
Local Abbreviation files_after := (files_after NPY_MAXDIMS np_float32 solvePnP Rodrigues).

(** ** One turn of the loader's loop *)

Ltac both_sides :=
  rewrite bind_lift;
  match goal with
  | |- context [match ?r with inl _ => _ | inr _ => _ end] =>
      destruct r; [reflexivity|]
  end.

(** For a camera id that is a key of the intrinsics object, the turn is the
    dict literal followed by the comparison of the two first dimensions. *)
Lemma load_camera_matched d sd k o :
  dict_mem k d = true ->
  load_camera (JObj d) sd (k, o) =
  match build_camera (JObj d) k o with
  | inl e => ([], inl e)
  | inr c =>
      match shape0 (cam_points_3d c) with
      | inl e => ([], inl e)
      | inr n3 =>
          match shape0 (cam_points_2d c) with
          | inl e => ([], inl e)
          | inr n2 =>
              if Nat.eqb n3 n2 then ([], inr (dict_set k c sd))
              else ([mismatch_line k], inr (dict_del k sd))
          end
      end
  end.
Proof.
  intros Hmem. unfold load_camera, build_camera, and_then.
  rewrite bind_lift. simpl py_contains. rewrite Hmem. simpl negb. cbv iota.
  do 9 both_sides. cbv beta iota. simpl cam_points_3d. simpl cam_points_2d.
  do 2 both_sides.
  destruct (Nat.eqb n3 n4); simpl negb; cbv iota.
  - reflexivity.
  - rewrite bind_print. simpl. now rewrite dict_del_set.
Qed.

(** A camera id the intrinsics document does not contain is skipped before
    anything of its observation is read. *)
Lemma load_camera_skipped intr sd k o :
  py_contains k intr = inr false ->
  load_camera intr sd (k, o) = ([warning_line k], inr sd).
Proof.
  intros Hc. unfold load_camera. rewrite bind_lift, Hc. simpl negb. cbv iota.
  rewrite bind_print. reflexivity.
Qed.

Lemma build_camera_inv intr k o c :
  build_camera intr k o = inr c ->
  exists int_data kj dj p3 p2,
    py_getitem intr k = inr int_data /\
    py_getitem int_data "K" = inr kj /\ np_array kj = inr (cam_K c) /\
    py_getitem int_data "distortion" = inr dj /\ np_array dj = inr (cam_dist c) /\
    py_getitem o "points_3d" = inr p3 /\ np_array p3 = inr (cam_points_3d c) /\
    py_getitem o "points_2d" = inr p2 /\ np_array p2 = inr (cam_points_2d c).
Proof.
  unfold build_camera, and_then.
  destruct (py_getitem intr k) as [|int_data] eqn:G; [discriminate|].
  destruct (py_getitem int_data "K") as [|kj] eqn:GK; [discriminate|].
  destruct (np_array kj) as [|K] eqn:EK; [discriminate|].
  destruct (py_getitem int_data "distortion") as [|dj] eqn:GD; [discriminate|].
  destruct (np_array dj) as [|dist] eqn:ED; [discriminate|].
  destruct (py_getitem o "points_3d") as [|p3] eqn:G3; [discriminate|].
  destruct (np_array p3) as [|a3] eqn:E3; [discriminate|].
  destruct (py_getitem o "points_2d") as [|p2] eqn:G2; [discriminate|].
  destruct (np_array p2) as [|a2] eqn:E2; [discriminate|].
  intros H. inversion H; subst c. simpl.
  exists int_data, kj, dj, p3, p2. repeat split; assumption.
Qed.

Lemma build_camera_counts intr k o c n3 n2 :
  build_camera intr k o = inr c ->
  shape0 (cam_points_3d c) = inr n3 ->
  shape0 (cam_points_2d c) = inr n2 ->
  point_count o "points_3d" = Some n3 /\ point_count o "points_2d" = Some n2 /\
  counts_agree o = Nat.eqb n3 n2.
Proof.
  intros Hb H3 H2.
  destruct (build_camera_inv _ _ _ _ Hb)
    as [int_data [kj [dj [p3 [p2 [_ [_ [_ [_ [_ [G3 [A3 [G2 A2]]]]]]]]]]]]].
  pose proof (point_count_spec _ _ _ _ _ _ _ G3 A3 H3) as P3.
  pose proof (point_count_spec _ _ _ _ _ _ _ G2 A2 H2) as P2.
  unfold counts_agree. now rewrite P3, P2.
Qed.

(** What a turn that returns has done. *)
Lemma load_camera_step intr sd k o log sd' :
  load_camera intr sd (k, o) = (log, inr sd') ->
  (has_key intr k = false /\ sd' = sd /\ log = [warning_line k]) \/
  (has_key intr k = true /\
   exists c n3 n2,
     build_camera intr k o = inr c /\
     shape0 (cam_points_3d c) = inr n3 /\ shape0 (cam_points_2d c) = inr n2 /\
     ((n3 = n2 /\ sd' = dict_set k c sd /\ log = []) \/
      (n3 <> n2 /\ sd' = dict_del k sd /\ log = [mismatch_line k]))).
Proof.
  intros H.
  assert (Hskip : py_contains k intr = inr false -> has_key intr k = false ->
                  (has_key intr k = false /\ sd' = sd /\ log = [warning_line k])).
  { intros Hc Hk. rewrite (load_camera_skipped _ _ _ _ Hc) in H. inversion H. auto. }
  assert (Hraise : forall e, py_contains k intr = inr true ->
                   py_getitem intr k = inl e -> False).
  { intros e Hc Hg. unfold load_camera in H.
    rewrite bind_lift, Hc in H. simpl negb in H. cbv iota in H.
    rewrite bind_lift, Hg in H. discriminate. }
  destruct intr as [| | | | s |l|d].
  1-4: unfold load_camera in H; rewrite bind_lift in H; discriminate.
  - simpl in Hskip, Hraise. destruct (is_substring k s) eqn:E.
    + exfalso. now apply (Hraise _ eq_refl eq_refl).
    + left. now apply Hskip.
  - simpl in Hskip, Hraise. destruct (existsb (is_str k) l) eqn:E.
    + exfalso. now apply (Hraise _ eq_refl eq_refl).
    + left. now apply Hskip.
  - clear Hraise. simpl in Hskip. simpl has_key. destruct (dict_mem k d) eqn:E.
    + right. split; [reflexivity|].
      rewrite (load_camera_matched _ _ _ _ E) in H.
      destruct (build_camera (JObj d) k o) as [e|c]; [discriminate|].
      destruct (shape0 (cam_points_3d c)) as [e|n3] eqn:E3; [discriminate|].
      destruct (shape0 (cam_points_2d c)) as [e|n2] eqn:E2; [discriminate|].
      exists c, n3, n2. split; [reflexivity|]. split; [exact E3|]. split; [exact E2|].
      destruct (Nat.eqb n3 n2) eqn:Eq; inversion H.
      * left. apply Nat.eqb_eq in Eq. auto.
      * right. apply Nat.eqb_neq in Eq. auto.
    + left. now apply Hskip.
Qed.

(** ** The loader's loop *)

Local Abbreviation loaded_from := (loaded_from NPY_MAXDIMS np_float32).

Lemma load_loop_diagnostics intr items :
  forall sd log loaded,
  for_each (load_camera intr) items sd = (log, inr loaded) ->
  log = flat_map (diagnostic intr) items /\
  Forall (fun item => has_key intr (fst item) = true -> convertible intr item = true) items.
Proof.
  induction items as [|[k o] items IH]; intros sd log loaded H.
  - inversion H. split; [reflexivity | constructor].
  - rewrite for_each_cons in H.
    destruct (load_camera intr sd (k, o)) as [l1 [e|sd1]] eqn:E1; unfold bind in H;
      [discriminate|].
    destruct (for_each (load_camera intr) items sd1) as [l2 r2] eqn:E2.
    inversion H; subst r2; clear H.
    destruct (IH _ _ _ E2) as [Hlog Hall]. subst l2.
    assert (Hhead : l1 = diagnostic intr (k, o) /\
                    (has_key intr k = true -> convertible intr (k, o) = true)).
    { unfold diagnostic. cbn [fst snd].
      destruct (load_camera_step _ _ _ _ _ _ E1)
        as [[Hk [_ ->]]|[Hk [c [n3 [n2 [Hb [H3 [H2 Hcase]]]]]]]]; rewrite Hk.
      - split; [reflexivity | discriminate].
      - destruct (build_camera_counts _ _ _ _ _ _ Hb H3 H2) as [_ [_ Hc]]. rewrite Hc.
        split.
        + destruct Hcase as [[Heq [_ ->]]|[Hne [_ ->]]].
          * apply Nat.eqb_eq in Heq. now rewrite Heq.
          * apply Nat.eqb_neq in Hne. now rewrite Hne.
        + intros _. unfold convertible. simpl. now rewrite Hb, H3, H2. }
    destruct Hhead as [-> Hconv]. split; [reflexivity|].
    constructor; [exact Hconv | exact Hall].
Qed.

Lemma load_loop_provenance intr all items :
  forall sd log loaded,
  incl items all ->
  Forall (loaded_from intr all) sd ->
  for_each (load_camera intr) items sd = (log, inr loaded) ->
  Forall (loaded_from intr all) loaded.
Proof.
  induction items as [|[k o] items IH]; intros sd log loaded Hincl Hsd H.
  - inversion H. subst. exact Hsd.
  - rewrite for_each_cons in H.
    destruct (load_camera intr sd (k, o)) as [l1 [e|sd1]] eqn:E1; unfold bind in H;
      [discriminate|].
    destruct (for_each (load_camera intr) items sd1) as [l2 r2] eqn:E2.
    inversion H; subst r2; clear H.
    apply (IH sd1 l2 loaded); [intros x Hx; apply Hincl; now right | | exact E2].
    destruct (load_camera_step _ _ _ _ _ _ E1)
      as [[_ [-> _]]|[_ [c [n3 [n2 [Hb [H3 [H2 Hcase]]]]]]]].
    + exact Hsd.
    + destruct Hcase as [[Heq [-> _]]|[_ [-> _]]].
      * apply Forall_dict_set; [|exact Hsd]. subst n2.
        destruct (build_camera_counts _ _ _ _ _ _ Hb H3 H2) as [P3 [P2 _]].
        exists o, n3. simpl. repeat split; auto. apply Hincl. now left.
      * now apply Forall_dict_del.
Qed.

(** A loop over items that are all skipped or convertible returns. *)
Lemma load_loop_returns_when_convertible d items :
  (forall item, In item items ->
     has_key (JObj d) (fst item) = true -> convertible (JObj d) item = true) ->
  forall sd, exists log loaded,
    for_each (load_camera (JObj d)) items sd = (log, inr loaded).
Proof.
  induction items as [|[k o] items IH]; intros Hall sd.
  - now exists [], sd.
  - rewrite for_each_cons.
    assert (Hstep : exists l1 sd1, load_camera (JObj d) sd (k, o) = (l1, inr sd1)).
    { destruct (dict_mem k d) eqn:E.
      - rewrite (load_camera_matched _ _ _ _ E).
        specialize (Hall (k, o) (or_introl eq_refl) E). unfold convertible in Hall.
        simpl in Hall.
        destruct (build_camera (JObj d) k o) as [e|c]; [discriminate|].
        destruct (shape0 (cam_points_3d c)) as [e|n3]; [discriminate|].
        destruct (shape0 (cam_points_2d c)) as [e|n2]; [discriminate|].
        destruct (Nat.eqb n3 n2); eauto.
      - rewrite (load_camera_skipped (JObj d) sd k o); [eauto|].
        simpl. now rewrite E. }
    destruct Hstep as [l1 [sd1 Hs]]. rewrite Hs.
    destruct (IH (fun item Hin => Hall item (or_intror Hin)) sd1) as [l2 [loaded Hl]].
    exists (l1 ++ l2), loaded. unfold bind. now rewrite Hl.
Qed.

(** The loop of the loader, once both documents are parsed and the loader
    returns. *)
Lemma loader_loop fs intr obs loaded :
  json_load fs INTRINSICS_FILE = inr intr ->
  json_load fs OBSERVATIONS_FILE = inr obs ->
  outcome (load_calibration_data fs INTRINSICS_FILE OBSERVATIONS_FILE) = inr loaded ->
  for_each (load_camera intr) (observed_cameras obs) [] =
    (stdout (structure_data intr obs), inr loaded) /\
  stdout (load_calibration_data fs INTRINSICS_FILE OBSERVATIONS_FILE) =
    "Loading data from intrinsics.json and observations.json..."
      :: stdout (structure_data intr obs).
Proof.
  intros Hi Ho Hl.
  rewrite (load_calibration_data_parsed _ _ _ _ _ _ _ Hi Ho) in *. simpl in Hl.
  split; [|reflexivity].
  unfold structure_data, observed_cameras in *. rewrite bind_lift in *.
  destruct (py_get obs "cameras" (JObj [])) as [e|cams]; [discriminate|].
  rewrite bind_lift in *.
  destruct cams; try discriminate. simpl py_items in *. cbv iota in *.
  rewrite <- Hl. apply run_eta.
Qed.

Lemma In_dict_mem {V} k (v : V) (d : pydict V) : In (k, v) d -> dict_mem k d = true.
Proof.
  intros Hin. apply dict_mem_In. unfold dict_keys.
  change k with (fst (k, v)). now apply in_map.
Qed.

(** A loop whose cameras are all missing from the intrinsics leaves the
    mapping as it is and prints one warning per camera, whatever the
    observations hold. *)
Lemma load_loop_all_skipped intr items :
  (forall item, In item items -> py_contains (fst item) intr = inr false) ->
  forall sd,
    for_each (load_camera intr) items sd = (map warning_line (dict_keys items), inr sd).
Proof.
  induction items as [|[k o] items IH]; intros Hall sd; [reflexivity|].
  rewrite for_each_cons, (load_camera_skipped intr sd k o (Hall (k, o) (or_introl eq_refl))).
  unfold bind. rewrite IH; [reflexivity|]. intros item Hin. apply Hall. now right.
Qed.

(** With intrinsics that are no object, a loop that returns has loaded
    nothing. *)
Lemma load_loop_without_object intr items :
  (forall d, intr <> JObj d) ->
  forall sd log loaded,
    for_each (load_camera intr) items sd = (log, inr loaded) -> loaded = sd.
Proof.
  intros Hobj. induction items as [|[k o] items IH]; intros sd log loaded H.
  - now inversion H.
  - rewrite for_each_cons in H.
    destruct (load_camera intr sd (k, o)) as [l1 [e|sd1]] eqn:E1; unfold bind in H;
      [discriminate|].
    destruct (for_each (load_camera intr) items sd1) as [l2 r2] eqn:E2.
    inversion H; subst r2; clear H.
    rewrite (IH _ _ _ E2).
    destruct (load_camera_step _ _ _ _ _ _ E1) as [[_ [-> _]]|[Hk _]]; [reflexivity|].
    destruct intr; try discriminate. now destruct (Hobj fields).
Qed.

(** The loops for two intrinsics objects that agree on the observed camera
    ids are the same. *)
Lemma load_loop_ext d d' items :
  (forall k o, In (k, o) items -> dict_get k d = dict_get k d') ->
  forall sd,
    for_each (load_camera (JObj d)) items sd = for_each (load_camera (JObj d')) items sd.
Proof.
  induction items as [|[k o] items IH]; intros Hagree sd; [reflexivity|].
  rewrite !for_each_cons.
  assert (Hstep : load_camera (JObj d) sd (k, o) = load_camera (JObj d') sd (k, o)).
  { unfold load_camera, py_contains, dict_mem.
    rewrite (Hagree k o (or_introl eq_refl)).
    destruct (dict_get k d') as [x|]; [|reflexivity].
    simpl negb. cbv iota. rewrite !bind_lift. simpl py_getitem.
    now rewrite (Hagree k o (or_introl eq_refl)). }
  rewrite Hstep. unfold bind.
  destruct (load_camera (JObj d') sd (k, o)) as [l1 [e|sd1]]; [reflexivity|].
  rewrite IH; [reflexivity|]. intros k' o' Hin. apply (Hagree k' o'). now right.
Qed.

(** The run reads the two input files and nothing else. *)
Lemma main_ext fs fs' :
  json_load fs INTRINSICS_FILE = json_load fs' INTRINSICS_FILE ->
  json_load fs OBSERVATIONS_FILE = json_load fs' OBSERVATIONS_FILE ->
  main fs = main fs'.
Proof.
  intros Hi Ho. unfold main, load_calibration_data. now rewrite Hi, Ho.
Qed.

Lemma main_outcome_cases fs :
  (exists e, outcome (main fs) = inl e /\
             outcome (load_calibration_data fs INTRINSICS_FILE OBSERVATIONS_FILE) = inl e) \/
  (outcome (main fs) = inr None /\
   outcome (load_calibration_data fs INTRINSICS_FILE OBSERVATIONS_FILE) = inr []) \/
  (exists loaded,
     loaded <> [] /\
     outcome (load_calibration_data fs INTRINSICS_FILE OBSERVATIONS_FILE) = inr loaded /\
     outcome (main fs) =
       inr (Some (json_of_results (map (fun kc => (fst kc, entry_of (snd kc))) loaded)))).
Proof.
  destruct (outcome (load_calibration_data fs INTRINSICS_FILE OBSERVATIONS_FILE))
    as [e|loaded] eqn:Hl.
  - left. exists e. split; [|reflexivity].
    now rewrite (main_loader_raises _ _ _ _ _ _ Hl).
  - pose proof (loader_unique_keys _ _ _ _ _ _ Hl) as Hu.
    rewrite (main_after_load _ _ _ _ _ _ Hl Hu). simpl.
    destruct loaded as [|kc loaded].
    + right. left. auto.
    + right. right. exists (kc :: loaded). repeat split. discriminate.
Qed.

(** ** What the loader prints and loads *)

(** X1: when the loader returns, it has printed the loading line and then,
    in the order of the observations document, one warning for each
    observed camera without intrinsics, one error for each camera whose
    point counts differ, and nothing for a camera it loads. *)
Theorem loader_prints_one_line_per_dropped_camera fs intr obs loaded :
  json_load fs INTRINSICS_FILE = inr intr ->
  json_load fs OBSERVATIONS_FILE = inr obs ->
  outcome (load_calibration_data fs INTRINSICS_FILE OBSERVATIONS_FILE) = inr loaded ->
  stdout (load_calibration_data fs INTRINSICS_FILE OBSERVATIONS_FILE) =
    "Loading data from intrinsics.json and observations.json..."
      :: flat_map (diagnostic intr) (observed_cameras obs).
Proof.
  intros Hi Ho Hl. destruct (loader_loop _ _ _ _ Hi Ho Hl) as [Hloop ->].
  now destruct (load_loop_diagnostics _ _ _ _ _ Hloop) as [<- _].
Qed.

(** X2: every camera of the mapping the loader returns was built from the
    item of the [cameras] object with the same id and from the intrinsics
    entry with that id, and its two point arrays have the same number of
    rows, the number of 3D and of 2D points of that item. *)
Theorem loaded_camera_comes_from_its_entries fs intr obs loaded k c :
  json_load fs INTRINSICS_FILE = inr intr ->
  json_load fs OBSERVATIONS_FILE = inr obs ->
  outcome (load_calibration_data fs INTRINSICS_FILE OBSERVATIONS_FILE) = inr loaded ->
  dict_get k loaded = Some c ->
  loaded_from intr (observed_cameras obs) (k, c).
Proof.
  intros Hi Ho Hl Hg. destruct (loader_loop _ _ _ _ Hi Ho Hl) as [Hloop _].
  pose proof (load_loop_provenance intr (observed_cameras obs) _ _ _ _
                (incl_refl _) (Forall_nil _) Hloop) as Hall.
  rewrite Forall_forall in Hall. apply Hall. now apply dict_get_In.
Qed.

(** X3: the run depends on the intrinsics document only through the entries
    of the observed cameras: two intrinsics objects that agree on every id
    of the [cameras] object give the same printed lines and the same
    outcome, whatever else they hold and in whatever order. *)
Theorem unobserved_intrinsics_are_ignored fs fs' d d' obs :
  json_load fs INTRINSICS_FILE = inr (JObj d) ->
  json_load fs' INTRINSICS_FILE = inr (JObj d') ->
  json_load fs OBSERVATIONS_FILE = inr obs ->
  json_load fs' OBSERVATIONS_FILE = inr obs ->
  (forall k, dict_mem k (observed_cameras obs) = true -> dict_get k d = dict_get k d') ->
  main fs = main fs'.
Proof.
  intros Hi Hi' Ho Ho' Hagree.
  assert (Hs : structure_data (JObj d) obs = structure_data (JObj d') obs).
  { unfold structure_data, observed_cameras in *. rewrite !bind_lift.
    destruct (py_get obs "cameras" (JObj [])) as [e|cams]; [reflexivity|].
    rewrite !bind_lift. destruct cams; try reflexivity. simpl py_items. cbv iota.
    apply load_loop_ext. intros k o Hin. apply Hagree. now apply (In_dict_mem k o). }
  unfold main.
  rewrite (load_calibration_data_parsed _ _ _ _ _ _ _ Hi Ho),
          (load_calibration_data_parsed _ _ _ _ _ _ _ Hi' Ho'), Hs.
  reflexivity.
Qed.

(** X4: with an intrinsics document that is valid JSON but no object, no
    camera is ever loaded: the loader returns the empty mapping or raises,
    and the run writes no report. *)
Theorem intrinsics_not_an_object_gives_no_report fs intr :
  json_load fs INTRINSICS_FILE = inr intr ->
  (forall d, intr <> JObj d) ->
  (forall loaded,
     outcome (load_calibration_data fs INTRINSICS_FILE OBSERVATIONS_FILE) = inr loaded ->
     loaded = []) /\
  (forall doc, outcome (main fs) <> inr (Some doc)) /\
  files_after fs = fs.
Proof.
  intros Hi Hobj.
  assert (Hnone : forall loaded,
    outcome (load_calibration_data fs INTRINSICS_FILE OBSERVATIONS_FILE) = inr loaded ->
    loaded = []).
  { intros loaded. unfold load_calibration_data. rewrite bind_print, Hi. simpl outcome.
    destruct (json_load fs OBSERVATIONS_FILE) as [[name|e|e]|obs].
    - intros H. now inversion H.
    - intros H. now inversion H.
    - discriminate.
    - unfold structure_data. rewrite bind_lift.
      destruct (py_get obs "cameras" (JObj [])) as [e|cams]; [discriminate|].
      rewrite bind_lift. destruct (py_items cams) as [e|items]; [discriminate|].
      intros H.
      apply (load_loop_without_object intr items Hobj []
               (stdout (for_each (load_camera intr) items []))).
      rewrite <- H. apply run_eta. }
  assert (Hmain : forall doc, outcome (main fs) <> inr (Some doc)).
  { intros doc.
    destruct (main_outcome_cases fs) as [[e [-> _]]|[[-> _]|[loaded [Hne [Hl _]]]]];
      try discriminate.
    now apply Hnone in Hl. }
  split; [exact Hnone|]. split; [exact Hmain|].
  unfold files_after. destruct (outcome (main fs)) as [e|[doc|]] eqn:E; try reflexivity.
  now destruct (Hmain doc).
Qed.

(** X5: an observations document that is valid JSON but no object ends the
    run with [AttributeError] at [.get]; one whose [cameras] field is no
    object ends it with [AttributeError] at [.items()].  In both cases only
    the loading line has been printed and no report is written. *)
Theorem observations_of_wrong_type_end_the_run fs intr obs :
  json_load fs INTRINSICS_FILE = inr intr ->
  json_load fs OBSERVATIONS_FILE = inr obs ->
  ((forall fields, obs <> JObj fields) ->
   main fs = (["Loading data from intrinsics.json and observations.json..."],
              inl (no_attribute obs "get")) /\
   files_after fs = fs) /\
  (forall fields v,
     obs = JObj fields ->
     dict_get "cameras" fields = Some v ->
     (forall cams, v <> JObj cams) ->
     main fs = (["Loading data from intrinsics.json and observations.json..."],
                inl (no_attribute v "items")) /\
     files_after fs = fs).
Proof.
  intros Hi Ho.
  assert (Hm : forall e,
    structure_data intr obs = ([], inl e) ->
    main fs = (["Loading data from intrinsics.json and observations.json..."], inl e) /\
    files_after fs = fs).
  { intros e Hs.
    assert (Hmain : main fs =
      (["Loading data from intrinsics.json and observations.json..."], inl e)).
    { unfold main. rewrite (load_calibration_data_parsed _ _ _ _ _ _ _ Hi Ho), Hs.
      reflexivity. }
    split; [exact Hmain|]. unfold files_after. now rewrite Hmain. }
  split.
  - intros Hobj. apply Hm. unfold structure_data.
    destruct obs; try reflexivity. now destruct (Hobj fields).
  - intros fields v -> Hv Hobj. apply Hm. unfold structure_data.
    rewrite bind_lift. simpl py_get. rewrite Hv. cbv iota. rewrite bind_lift.
    destruct v; try reflexivity. now destruct (Hobj fields0).
Qed.

(** X6: when the loader returns, the run writes a report exactly when some
    camera of the observations document passes both load-time checks. *)
Theorem report_iff_some_camera_passes fs intr obs loaded :
  json_load fs INTRINSICS_FILE = inr intr ->
  json_load fs OBSERVATIONS_FILE = inr obs ->
  unique_keys (observed_cameras obs) = true ->
  outcome (load_calibration_data fs INTRINSICS_FILE OBSERVATIONS_FILE) = inr loaded ->
  (exists doc, outcome (main fs) = inr (Some doc)) <->
  existsb (passes_validation intr) (observed_cameras obs) = true.
Proof.
  intros Hi Ho Hu Hl.
  destruct (loader_returns _ _ _ _ _ _ _ _ Hi Ho Hu Hl) as [Hk [_ Hul]].
  rewrite (main_after_load _ _ _ _ _ _ Hl Hul). simpl outcome.
  rewrite existsb_exists. split.
  - intros [doc Hdoc]. destruct loaded as [|[k c] loaded]; [discriminate|].
    assert (Hin : In k (dict_keys (filter (passes_validation intr) (observed_cameras obs))))
      by (rewrite <- Hk; now left).
    unfold dict_keys in Hin. apply in_map_iff in Hin as [item [_ Hin]].
    apply filter_In in Hin. now exists item.
  - intros [item [Hin Hp]]. destruct loaded as [|kc loaded]; [|eauto].
    exfalso.
    assert (Hf : In item (filter (passes_validation intr) (observed_cameras obs)))
      by (apply filter_In; auto).
    destruct (filter (passes_validation intr) (observed_cameras obs)); [destruct Hf | discriminate].
Qed.

(** X7: the run reads only the two input files and writes only the output
    file: it changes no other file, a second run on the files the first one
    left prints and returns the same, and leaves the same files. *)
Theorem rerun_gives_the_same_report fs :
  (forall name, name <> OUTPUT_FILE -> dict_get name (files_after fs) = dict_get name fs) /\
  main (files_after fs) = main fs /\
  files_after (files_after fs) = files_after fs.
Proof.
  assert (Hframe : forall name, name <> OUTPUT_FILE ->
                   dict_get name (files_after fs) = dict_get name fs).
  { intros name Hne. unfold files_after.
    destruct (outcome (main fs)) as [e|[doc|]]; try reflexivity.
    apply dict_get_set_other. congruence. }
  assert (Hmain : main (files_after fs) = main fs).
  { apply main_ext; unfold json_load; rewrite Hframe; (reflexivity || discriminate). }
  split; [exact Hframe|]. split; [exact Hmain|].
  unfold files_after at 1. rewrite Hmain. unfold files_after.
  destruct (outcome (main fs)) as [e|[doc|]]; try reflexivity.
  apply dict_set_set.
Qed.

(** ** The entries of the report *)

(** X8: a loaded camera whose solve succeeds is in the report under its id
    with the four lists of its pose; the rotation matrix has three rows of
    three numbers, the translation and the rotation vector three numbers. *)
Theorem solved_camera_is_reported fs loaded k cam r :
  outcome (load_calibration_data fs INTRINSICS_FILE OBSERVATIONS_FILE) = inr loaded ->
  dict_get k loaded = Some cam ->
  calculate_extrinsics cam = inr r ->
  dict_get k (written_cameras (main fs)) = Some (json_of_entry (Pose r)) /\
  length (rotation_matrix_R r) = 3 /\
  Forall (fun row => length row = 3) (rotation_matrix_R r) /\
  length (translation_vector_t r) = 3 /\
  length (R_Rodrigues_vector r) = 3.
Proof.
  intros Hl Hg Hr. split.
  - pose proof (loader_unique_keys _ _ _ _ _ _ Hl) as Hu.
    rewrite (written_cameras_main _ _ _ _ _ _ Hl Hu).
    rewrite (dict_get_map (fun c => json_of_entry (entry_of c))), Hg. simpl.
    unfold entry_of. now rewrite Hr.
  - apply calculate_extrinsics_inv in Hr as [rvec [tvec [R [jac [_ [_ ->]]]]]].
    simpl. repeat split. repeat constructor.
Qed.

(** X9: a report has the single key [cameras], and each of its entries is
    an object with exactly the four pose keys, in the order of the source,
    or with exactly the key [error]. *)
Theorem report_entries_are_poses_or_errors fs :
  (forall doc, outcome (main fs) = inr (Some doc) -> object_keys doc = ["cameras"]) /\
  Forall (fun kv => object_keys (snd kv) = pose_keys \/ object_keys (snd kv) = ["error"])
         (written_cameras (main fs)).
Proof.
  unfold written_cameras.
  destruct (main_outcome_cases fs) as [[e [-> _]]|[[-> _]|[loaded [_ [_ ->]]]]].
  - split; [discriminate | constructor].
  - split; [discriminate | constructor].
  - split.
    + intros doc H. inversion H. reflexivity.
    + rewrite document_cameras_results, map_map. apply Forall_forall.
      intros kv Hin. apply in_map_iff in Hin as [kc [<- _]]. simpl.
      destruct (entry_of (snd kc)); [left | right]; reflexivity.
Qed.

(** ** Inputs without a camera to load *)

(** X10: when the intrinsics object has none of the ids of the [cameras]
    object, the loader prints one warning per observed camera, in document
    order, and returns the empty mapping without reading any observation
    entry; the run then prints that nothing was loaded and writes no
    report. *)
Theorem no_common_camera_exits_early fs d obs cams :
  json_load fs INTRINSICS_FILE = inr (JObj d) ->
  json_load fs OBSERVATIONS_FILE = inr obs ->
  py_get obs "cameras" (JObj []) = inr (JObj cams) ->
  (forall k, dict_mem k cams = true -> dict_mem k d = false) ->
  main fs =
    ("Loading data from intrinsics.json and observations.json..."
       :: map warning_line (dict_keys cams) ++ ["No valid camera data loaded. Exiting."],
     inr None) /\
  files_after fs = fs.
Proof.
  intros Hi Ho Hc Hnone.
  assert (Hmain : main fs =
    ("Loading data from intrinsics.json and observations.json..."
       :: map warning_line (dict_keys cams) ++ ["No valid camera data loaded. Exiting."],
     inr None)).
  { unfold main. rewrite (load_calibration_data_parsed _ _ _ _ _ _ _ Hi Ho).
    unfold structure_data. rewrite bind_lift, Hc, bind_lift. simpl py_items. cbv iota.
    rewrite load_loop_all_skipped.
    - reflexivity.
    - intros [k o] Hin. simpl. f_equal. apply Hnone. now apply (In_dict_mem k o). }
  split; [exact Hmain|]. unfold files_after. now rewrite Hmain.
Qed.

(** ** When the loader raises *)

(** X11: for an intrinsics object and an observations document whose
    [cameras] is an object, the loader returns, rather than raising,
    exactly when every observed camera that has intrinsics is convertible:
    its four fields are there, [np.array] accepts them and both point
    arrays have a first dimension.  Cameras without intrinsics never make it
    raise, and a camera with differing point counts must still convert. *)
Theorem loader_returns_iff_matched_cameras_convert fs d obs cams :
  json_load fs INTRINSICS_FILE = inr (JObj d) ->
  json_load fs OBSERVATIONS_FILE = inr obs ->
  py_get obs "cameras" (JObj []) = inr (JObj cams) ->
  (exists loaded,
     outcome (load_calibration_data fs INTRINSICS_FILE OBSERVATIONS_FILE) = inr loaded) <->
  (forall item, In item cams ->
     has_key (JObj d) (fst item) = true -> convertible (JObj d) item = true).
Proof.
  intros Hi Ho Hc.
  rewrite (load_calibration_data_parsed _ _ _ _ _ _ _ Hi Ho). simpl outcome.
  unfold structure_data. rewrite bind_lift, Hc, bind_lift. simpl py_items. cbv iota.
  split.
  - intros [loaded Hl].
    assert (Hloop : for_each (load_camera (JObj d)) cams [] =
                    (stdout (for_each (load_camera (JObj d)) cams []), inr loaded))
      by (rewrite <- Hl; apply run_eta).
    destruct (load_loop_diagnostics _ _ _ _ _ Hloop) as [_ Hall].
    now rewrite Forall_forall in Hall.
  - intros Hall.
    destruct (load_loop_returns_when_convertible d cams Hall []) as [log [loaded Hl]].
    exists loaded. now rewrite Hl.
Qed.

End Further.

(** ** The sample run *)

Lemma sample_loaded :
  outcome (Sample.load Sample.files INTRINSICS_FILE OBSERVATIONS_FILE) = inr Sample.loaded.
Proof. vm_compute. reflexivity. Qed.

Lemma output_cameras_iff_validated_sample :
  (forall k,
     dict_mem k (written_cameras (Sample.run Sample.files)) = true <->
     has_key Sample.intrinsics k = true /\
     exists o, dict_get k Sample.cameras = Some o /\ counts_agree o = true) /\
  dict_keys (written_cameras (Sample.run Sample.files)) = ["cam1"; "cam2"; "cam3"].
Proof.
  split; [|reflexivity].
  eapply (output_cameras_iff_validated 32 Sample.to_float32 Sample.solvePnP Sample.Rodrigues
            Sample.files Sample.intrinsics Sample.observations).
  - reflexivity.
  - reflexivity.
  - reflexivity.
  - vm_compute. reflexivity.
Defined.

(** C1 as stated fails where the loader raises: [cam1] is a key of both
    documents with six 3D and six 2D points, its intrinsics entry has no [K],
    the run ends in [KeyError] and no report holds [cam1]. *)
Lemma output_cameras_iff_fails_on_missing_K :
  json_load Sample.broken_files INTRINSICS_FILE = inr Sample.broken_intrinsics /\
  json_load Sample.broken_files OBSERVATIONS_FILE = inr Sample.broken_observations /\
  unique_keys (observed_cameras Sample.broken_observations) = true /\
  has_key Sample.broken_intrinsics "cam1" = true /\
  dict_get "cam1" (observed_cameras Sample.broken_observations) = Some (Sample.observation 6 6) /\
  counts_agree (Sample.observation 6 6) = true /\
  Sample.run Sample.broken_files =
    (["Loading data from intrinsics.json and observations.json..."],
     inl (Exc KeyError "'K'")) /\
  dict_mem "cam1" (written_cameras (Sample.run Sample.broken_files)) = false.
Proof. repeat split. Qed.

Lemma solver_exception_is_recorded_sample :
  exists cameras,
    outcome (process_all Sample.solvePnP Sample.Rodrigues Sample.loaded) = inr cameras /\
    dict_keys cameras = dict_keys Sample.loaded /\
    dict_get "cam2" cameras = Some (ErrorEntry "not enough points") /\
    (forall k', k' <> "cam2" ->
       dict_get k' cameras =
       option_map (entry_of Sample.solvePnP Sample.Rodrigues) (dict_get k' Sample.loaded)) /\
    outcome (Sample.run Sample.files) = inr (Some (json_of_results cameras)).
Proof.
  exact (solver_exception_is_recorded 32 Sample.to_float32 Sample.solvePnP Sample.Rodrigues
           Sample.files Sample.loaded "cam2" (Sample.camera_with 3)
           (Exc (OtherException "cv2.error") "not enough points")
           sample_loaded eq_refl eq_refl).
Defined.

Lemma not_converged_raises_RuntimeError_sample :
  Sample.solve (Sample.camera_with 4) =
    inl (Exc RuntimeError "cv2.solvePnP failed to converge.") /\
  exists cameras,
    outcome (process_all Sample.solvePnP Sample.Rodrigues Sample.loaded) = inr cameras /\
    dict_get "cam3" cameras = Some (ErrorEntry "cv2.solvePnP failed to converge.") /\
    (forall k', k' <> "cam3" ->
       dict_get k' cameras =
       option_map (entry_of Sample.solvePnP Sample.Rodrigues) (dict_get k' Sample.loaded)) /\
    outcome (Sample.run Sample.files) = inr (Some (json_of_results cameras)).
Proof.
  destruct (not_converged_raises_RuntimeError 32 Sample.to_float32 Sample.solvePnP
              Sample.Rodrigues (Sample.camera_with 4) (Vec3 0 0 0) (Vec3 1 2 3) eq_refl)
    as [Hc Hrest].
  split; [exact Hc|]. exact (Hrest Sample.files Sample.loaded "cam3" sample_loaded eq_refl).
Defined.

(** C3 as stated fails: on a camera for which [cv2.solvePnP] reports failure
    the exception raised is a [RuntimeError], not a [SolverError], and its
    text is not "PnP failed to converge". *)
Lemma not_converged_is_not_SolverError :
  Sample.solvePnP (cam_points_3d (Sample.camera_with 4)) (cam_points_2d (Sample.camera_with 4))
                  (cam_K (Sample.camera_with 4)) (cam_dist (Sample.camera_with 4))
    = inr (false, Vec3 0 0 0, Vec3 1 2 3) /\
  Sample.solve (Sample.camera_with 4)
    = inl (Exc RuntimeError "cv2.solvePnP failed to converge.") /\
  Sample.solve (Sample.camera_with 4)
    <> inl (Exc (OtherException "SolverError") "PnP failed to converge") /\
  forall e, Sample.solve (Sample.camera_with 4) = inl e ->
            exc_str e <> "PnP failed to converge".
Proof.
  repeat split; try discriminate.
  intros e He. inversion He. discriminate.
Qed.

Lemma homogeneous_matrix_layout_sample :
  length (T_homogeneous_matrix_4x4 Sample.pose) = 4 /\
  Forall (fun row => length row = 4) (T_homogeneous_matrix_4x4 Sample.pose) /\
  nth 3 (T_homogeneous_matrix_4x4 Sample.pose) [] = [0; 0; 0; 1]%float /\
  map (firstn 3) (firstn 3 (T_homogeneous_matrix_4x4 Sample.pose))
    = rotation_matrix_R Sample.pose /\
  map (fun row => nth 3 row 0%float) (firstn 3 (T_homogeneous_matrix_4x4 Sample.pose))
    = translation_vector_t Sample.pose.
Proof.
  exact (homogeneous_matrix_layout Sample.solvePnP Sample.Rodrigues
           (Sample.camera_with 6) Sample.pose eq_refl).
Defined.

Lemma report_written_iff_cameras_loaded_sample :
  outcome (Sample.run []) = inr None /\
  Sample.run Cases.files_observations_malformed =
    (["Loading data from intrinsics.json and observations.json...";
      "ERROR: Invalid JSON format in a file. Expecting value: line 1 column 1 (char 0). Aborting.";
      "No valid camera data loaded. Exiting."], inr None) /\
  exists doc,
    outcome (Sample.run Sample.files) = inr (Some doc) /\
    dict_get OUTPUT_FILE
      (files_after 32 Sample.to_float32 Sample.solvePnP Sample.Rodrigues Sample.files)
      = Some (Document doc).
Proof.
  split; [|split; [reflexivity|]].
  - exact (proj1 (proj2 (proj1
      (report_written_iff_cameras_loaded 32 Sample.to_float32 Sample.solvePnP Sample.Rodrigues [])
      (or_introl eq_refl)))).
  - refine (proj2
      (report_written_iff_cameras_loaded 32 Sample.to_float32 Sample.solvePnP Sample.Rodrigues
         Sample.files) Sample.loaded sample_loaded _).
    discriminate.
Defined.

(** C5 as stated fails: an intrinsics file whose bytes are no UTF-8 text is
    there and holds no valid JSON, [json.load] raises [UnicodeDecodeError],
    which neither [except] clause of the loader catches, and the run ends
    with it instead of returning the empty mapping; the same happens when the
    observations file is absent besides. *)
Lemma input_that_is_no_text_ends_the_run :
  dict_get INTRINSICS_FILE Cases.files_intrinsics_not_text = Some (Unloadable Cases.not_utf8) /\
  Sample.load Cases.files_intrinsics_not_text INTRINSICS_FILE OBSERVATIONS_FILE =
    (["Loading data from intrinsics.json and observations.json..."], inl Cases.not_utf8) /\
  Sample.run Cases.files_intrinsics_not_text =
    (["Loading data from intrinsics.json and observations.json..."], inl Cases.not_utf8) /\
  outcome (Sample.load Cases.files_intrinsics_not_text INTRINSICS_FILE OBSERVATIONS_FILE)
    <> inr [] /\
  dict_get OBSERVATIONS_FILE Cases.files_intrinsics_not_text_alone = None /\
  Sample.run Cases.files_intrinsics_not_text_alone =
    (["Loading data from intrinsics.json and observations.json..."], inl Cases.not_utf8).
Proof. repeat split. discriminate. Qed.

Lemma float32_in_float64_out_sample :
  all_float32 (Sample.camera_with 6) /\
  forall r, Sample.solve (Sample.camera_with 6) = inr r ->
    (exists rvec R tvec,
       Sample.solvePnP (cam_points_3d (Sample.camera_with 6)) (cam_points_2d (Sample.camera_with 6))
                       (cam_K (Sample.camera_with 6)) (cam_dist (Sample.camera_with 6))
         = inr (true, rvec, tvec) /\
       T_homogeneous_matrix_4x4 r = tolist2 (homogeneous R tvec) /\
       arr_dtype (homogeneous R tvec) = float64) /\
    fields_only_floats (json_of_entry (Pose r)) = true.
Proof.
  exact (float32_in_float64_out 32 Sample.to_float32 Sample.solvePnP Sample.Rodrigues
           Sample.files INTRINSICS_FILE OBSERVATIONS_FILE Sample.loaded "cam1"
           (Sample.camera_with 6) sample_loaded eq_refl).
Defined.

Lemma cameras_solved_in_document_order_sample :
  dict_keys Sample.cameras = ["cam1"; "cam2"; "cam3"; "cam4"; "cam5"] /\
  match outcome (Sample.load Sample.files INTRINSICS_FILE OBSERVATIONS_FILE) with
  | inr loaded =>
      dict_keys loaded =
        dict_keys (filter (passes_validation Sample.intrinsics) Sample.cameras) /\
      (exists cameras,
         process_all Sample.solvePnP Sample.Rodrigues loaded =
           (flat_map (camera_lines Sample.solvePnP Sample.Rodrigues) loaded, inr cameras) /\
         dict_keys cameras = dict_keys loaded) /\
      stdout (Sample.run Sample.files) =
        stdout (Sample.load Sample.files INTRINSICS_FILE OBSERVATIONS_FILE) ++
        match loaded with
        | [] => ["No valid camera data loaded. Exiting."]
        | _ :: _ =>
            flat_map (camera_lines Sample.solvePnP Sample.Rodrigues) loaded ++
            [(newline ++ "--- Processing Complete ---")%string;
             ("Results saved to: " ++ OUTPUT_FILE)%string]
        end /\
      dict_keys (written_cameras (Sample.run Sample.files)) = dict_keys loaded
  | inl e =>
      Sample.run Sample.files =
        (stdout (Sample.load Sample.files INTRINSICS_FILE OBSERVATIONS_FILE), inl e)
  end.
Proof.
  split; [reflexivity|].
  exact (cameras_solved_in_document_order 32 Sample.to_float32 Sample.solvePnP Sample.Rodrigues
           Sample.files Sample.intrinsics Sample.observations eq_refl eq_refl eq_refl).
Defined.

Lemma no_cameras_key_loads_nothing_sample :
  Sample.load Sample.files_without_cameras INTRINSICS_FILE OBSERVATIONS_FILE =
    (["Loading data from intrinsics.json and observations.json..."], inr []) /\
  outcome (Sample.run Sample.files_without_cameras) = inr None /\
  files_after 32 Sample.to_float32 Sample.solvePnP Sample.Rodrigues Sample.files_without_cameras
    = Sample.files_without_cameras.
Proof.
  exact (no_cameras_key_loads_nothing 32 Sample.to_float32 Sample.solvePnP Sample.Rodrigues
           Sample.files_without_cameras Sample.intrinsics [("frames", JObj Sample.cameras)]
           eq_refl eq_refl eq_refl).
Defined.

(** C8 as stated fails: the empty array parses as valid JSON and has no
    [cameras] key, and the loader raises [AttributeError] at [.get] instead
    of returning the empty mapping. *)
Lemma observations_array_without_cameras_key_raises :
  json_load Cases.files_observations_empty_array OBSERVATIONS_FILE = inr (JArr []) /\
  has_key (JArr []) "cameras" = false /\
  Sample.load Cases.files_observations_empty_array INTRINSICS_FILE OBSERVATIONS_FILE =
    (["Loading data from intrinsics.json and observations.json..."],
     inl (Exc AttributeError "'list' object has no attribute 'get'")) /\
  Sample.run Cases.files_observations_empty_array =
    (["Loading data from intrinsics.json and observations.json..."],
     inl (Exc AttributeError "'list' object has no attribute 'get'")).
Proof. repeat split. Qed.

Lemma loader_raises_on_missing_field_sample :
  (exists e,
     outcome (Sample.load Sample.broken_files INTRINSICS_FILE OBSERVATIONS_FILE) = inl e /\
     outcome (Sample.run Sample.broken_files) = inl e /\
     files_after 32 Sample.to_float32 Sample.solvePnP Sample.Rodrigues Sample.broken_files
       = Sample.broken_files) /\
  (forall loaded, exists cameras,
     outcome (process_all Sample.solvePnP Sample.Rodrigues loaded) = inr cameras).
Proof.
  exact (loader_raises_on_missing_field 32 Sample.to_float32 Sample.solvePnP Sample.Rodrigues
           Sample.broken_files Sample.broken_intrinsics Sample.broken_observations
           "cam1" (JObj [("distortion", Sample.ints [0; 0; 0; 0; 0]%Z)])
           (Sample.observation 6 6)
           eq_refl eq_refl eq_refl eq_refl (or_introl eq_refl)).
Defined.

Lemma representations_share_vectors_sample :
  exists rvec tvec R jac,
    Sample.solvePnP (cam_points_3d (Sample.camera_with 6)) (cam_points_2d (Sample.camera_with 6))
                    (cam_K (Sample.camera_with 6)) (cam_dist (Sample.camera_with 6))
      = inr (true, rvec, tvec) /\
    Sample.Rodrigues rvec = inr (R, jac) /\
    R_Rodrigues_vector Sample.pose = vec3_tolist rvec /\
    rotation_matrix_R Sample.pose = mat3_tolist R /\
    translation_vector_t Sample.pose = vec3_tolist tvec /\
    T_homogeneous_matrix_4x4 Sample.pose = tolist2 (homogeneous R tvec) /\
    map (firstn 3) (firstn 3 (T_homogeneous_matrix_4x4 Sample.pose)) = mat3_tolist R /\
    map (fun row => nth 3 row 0%float) (firstn 3 (T_homogeneous_matrix_4x4 Sample.pose))
      = vec3_tolist tvec.
Proof.
  exact (representations_share_vectors Sample.solvePnP Sample.Rodrigues
           (Sample.camera_with 6) Sample.pose eq_refl).
Defined.

(** ** Further sample runs *)

Lemma loader_prints_one_line_per_dropped_camera_sample :
  stdout (Sample.load Sample.files INTRINSICS_FILE OBSERVATIONS_FILE) =
    ["Loading data from intrinsics.json and observations.json...";
     "Warning: Intrinsics for cam4 not found. Skipping.";
     "Error: Mismatch in 3D/2D point count for cam5. Skipping."].
Proof.
  exact (loader_prints_one_line_per_dropped_camera 32 Sample.to_float32
           Sample.files Sample.intrinsics Sample.observations Sample.loaded
           eq_refl eq_refl sample_loaded).
Defined.

Lemma loaded_camera_comes_from_its_entries_sample :
  loaded_from 32 Sample.to_float32 Sample.intrinsics Sample.cameras
              ("cam1", Sample.camera_with 6).
Proof.
  exact (loaded_camera_comes_from_its_entries 32 Sample.to_float32
           Sample.files Sample.intrinsics Sample.observations Sample.loaded
           "cam1" (Sample.camera_with 6) eq_refl eq_refl sample_loaded eq_refl).
Defined.

Lemma unobserved_intrinsics_are_ignored_sample :
  Sample.run Sample.files = Sample.run Cases.files_shuffled.
Proof.
  refine (unobserved_intrinsics_are_ignored 32 Sample.to_float32 Sample.solvePnP
            Sample.Rodrigues Sample.files Cases.files_shuffled
            [("cam1", Sample.intrinsics_entry); ("cam2", Sample.intrinsics_entry);
             ("cam3", Sample.intrinsics_entry); ("cam5", Sample.intrinsics_entry)]
            Cases.shuffled_intrinsics Sample.observations
            eq_refl eq_refl eq_refl eq_refl _).
  intros k. unfold dict_mem. simpl.
  repeat match goal with
  | |- context [String.eqb k ?s] =>
      destruct (String.eqb_spec k s) as [->|_];
      [first [intros _; reflexivity | intros H; simpl in H; discriminate H]|]
  end.
  intros H. discriminate H.
Defined.

Lemma intrinsics_not_an_object_gives_no_report_sample :
  (forall loaded,
     outcome (Sample.load Cases.files_intrinsics_array INTRINSICS_FILE OBSERVATIONS_FILE)
       = inr loaded -> loaded = []) /\
  (forall doc, outcome (Sample.run Cases.files_intrinsics_array) <> inr (Some doc)) /\
  files_after 32 Sample.to_float32 Sample.solvePnP Sample.Rodrigues
    Cases.files_intrinsics_array = Cases.files_intrinsics_array.
Proof.
  refine (intrinsics_not_an_object_gives_no_report 32 Sample.to_float32 Sample.solvePnP
            Sample.Rodrigues Cases.files_intrinsics_array
            (JArr [Sample.intrinsics_entry]) eq_refl _).
  discriminate.
Defined.

Lemma observations_of_wrong_type_end_the_run_sample :
  Sample.run Cases.files_observations_array =
    (["Loading data from intrinsics.json and observations.json..."],
     inl (Exc AttributeError "'list' object has no attribute 'get'")) /\
  Sample.run Cases.files_cameras_array =
    (["Loading data from intrinsics.json and observations.json..."],
     inl (Exc AttributeError "'list' object has no attribute 'items'")).
Proof.
  split.
  - refine (proj1 (proj1 (observations_of_wrong_type_end_the_run 32 Sample.to_float32
              Sample.solvePnP Sample.Rodrigues Cases.files_observations_array
              Sample.intrinsics (JArr [JObj Sample.cameras]) eq_refl eq_refl) _)).
    discriminate.
  - refine (proj1 (proj2 (observations_of_wrong_type_end_the_run 32 Sample.to_float32
              Sample.solvePnP Sample.Rodrigues Cases.files_cameras_array
              Sample.intrinsics (JObj [("cameras", JArr [])]) eq_refl eq_refl)
              [("cameras", JArr [])] (JArr []) eq_refl eq_refl _)).
    discriminate.
Defined.

Lemma report_iff_some_camera_passes_sample :
  (exists doc, outcome (Sample.run Sample.files) = inr (Some doc)) <->
  existsb (passes_validation Sample.intrinsics) Sample.cameras = true.
Proof.
  exact (report_iff_some_camera_passes 32 Sample.to_float32 Sample.solvePnP Sample.Rodrigues
           Sample.files Sample.intrinsics Sample.observations Sample.loaded
           eq_refl eq_refl eq_refl sample_loaded).
Defined.

Lemma rerun_gives_the_same_report_sample :
  (forall name, name <> OUTPUT_FILE ->
     dict_get name (files_after 32 Sample.to_float32 Sample.solvePnP Sample.Rodrigues Sample.files)
       = dict_get name Sample.files) /\
  Sample.run (files_after 32 Sample.to_float32 Sample.solvePnP Sample.Rodrigues Sample.files)
    = Sample.run Sample.files /\
  files_after 32 Sample.to_float32 Sample.solvePnP Sample.Rodrigues
    (files_after 32 Sample.to_float32 Sample.solvePnP Sample.Rodrigues Sample.files)
    = files_after 32 Sample.to_float32 Sample.solvePnP Sample.Rodrigues Sample.files.
Proof.
  exact (rerun_gives_the_same_report 32 Sample.to_float32 Sample.solvePnP Sample.Rodrigues
           Sample.files).
Defined.

Lemma solved_camera_is_reported_sample :
  dict_get "cam1" (written_cameras (Sample.run Sample.files))
    = Some (json_of_entry (Pose Sample.pose)) /\
  length (rotation_matrix_R Sample.pose) = 3 /\
  Forall (fun row => length row = 3) (rotation_matrix_R Sample.pose) /\
  length (translation_vector_t Sample.pose) = 3 /\
  length (R_Rodrigues_vector Sample.pose) = 3.
Proof.
  exact (solved_camera_is_reported 32 Sample.to_float32 Sample.solvePnP Sample.Rodrigues
           Sample.files Sample.loaded "cam1" (Sample.camera_with 6) Sample.pose
           sample_loaded eq_refl eq_refl).
Defined.

Lemma report_entries_are_poses_or_errors_sample :
  (forall doc, outcome (Sample.run Sample.files) = inr (Some doc) ->
     object_keys doc = ["cameras"]) /\
  Forall (fun kv => object_keys (snd kv) = pose_keys \/ object_keys (snd kv) = ["error"])
         (written_cameras (Sample.run Sample.files)).
Proof.
  exact (report_entries_are_poses_or_errors 32 Sample.to_float32 Sample.solvePnP
           Sample.Rodrigues Sample.files).
Defined.

Lemma no_common_camera_exits_early_sample :
  Sample.run Cases.files_no_overlap =
    (["Loading data from intrinsics.json and observations.json...";
      "Warning: Intrinsics for cam1 not found. Skipping.";
      "Warning: Intrinsics for cam2 not found. Skipping.";
      "Warning: Intrinsics for cam3 not found. Skipping.";
      "Warning: Intrinsics for cam4 not found. Skipping.";
      "Warning: Intrinsics for cam5 not found. Skipping.";
      "No valid camera data loaded. Exiting."],
     inr None) /\
  files_after 32 Sample.to_float32 Sample.solvePnP Sample.Rodrigues Cases.files_no_overlap
    = Cases.files_no_overlap.
Proof.
  refine (no_common_camera_exits_early 32 Sample.to_float32 Sample.solvePnP Sample.Rodrigues
            Cases.files_no_overlap Cases.other_intrinsics Sample.observations Sample.cameras
            eq_refl eq_refl eq_refl _).
  intros k. unfold dict_mem. simpl.
  repeat match goal with
  | |- context [String.eqb k ?s] =>
      destruct (String.eqb_spec k s) as [->|_];
      [first [intros _; reflexivity | intros H; simpl in H; discriminate H]|]
  end.
  intros H. discriminate H.
Defined.

Lemma loader_returns_iff_matched_cameras_convert_sample :
  ((exists loaded,
      outcome (Sample.load Sample.files INTRINSICS_FILE OBSERVATIONS_FILE) = inr loaded) <->
   (forall item, In item Sample.cameras ->
      has_key Sample.intrinsics (fst item) = true ->
      convertible 32 Sample.to_float32 Sample.intrinsics item = true)) /\
  convertible 32 Sample.to_float32 Sample.intrinsics
    ("cam1", JObj [("points_3d", JInt 5); ("points_2d", Sample.points 6 [320; 240]%Z)]) = false /\
  Sample.run Cases.files_scalar_points =
    (["Loading data from intrinsics.json and observations.json..."],
     inl (Exc IndexError "tuple index out of range")).
Proof.
  split; [|split; reflexivity].
  exact (loader_returns_iff_matched_cameras_convert 32 Sample.to_float32
           Sample.files
           [("cam1", Sample.intrinsics_entry); ("cam2", Sample.intrinsics_entry);
            ("cam3", Sample.intrinsics_entry); ("cam5", Sample.intrinsics_entry)]
           Sample.observations Sample.cameras eq_refl eq_refl eq_refl).
Defined.
